(** * A blog REST API: posts and users behind HTTP Basic authentication

    Shallow embedding of [server.js] (the Express routes and the passport
    verify callback) and of the Mongoose models ([BlogPost], [User]).

    What the repository's code does is translated function by function.
    What its libraries do is modelled just far enough for the routes to run:
    - Express: a response object that accepts one response and throws on a
      second one (headers already sent); an exception that escapes a route
      before any response was sent is answered by the default 500 page;
    - promises: [.then] is sequencing, [.catch] is exception handling (one
      request is run to completion, there is no interleaving);
    - Mongoose: schema casting and validation, lookups by id and by
      username, the unique index on [username];
    - passport and passport-http: the reading of the Authorization header
      (the credentials split at the colons), the 401 challenge and the 400
      for a malformed header;
    - bcrypt: two opaque functions, [compare] and [hash]. *)

From stdpp Require Import base option list strings gmap pretty.
From Stdlib Require Import ZArith Ascii String.

Local Open Scope string_scope.
Local Open Scope Z_scope.

(** ** JavaScript values of a parsed JSON body *)

(** [JNum] holds the integral numbers JavaScript represents exactly.
    Of an object only one thing matters here, whether it has a string
    under [_id]: [JDoc] is an object that has one, [JObj] any other plain
    object. A field that is absent from an object reads as [undefined],
    which is [None] of [option JsVal]. *)
Inductive JsVal : Type :=
| JNull
| JBool (b : bool)
| JNum (n : Z)
| JStr (s : string)
| JDoc (_id : string)
| JObj.

#[global] Instance JsVal_eq_dec : EqDecision JsVal.
Proof. solve_decision. Defined.

(** [!!v] of JavaScript: the value is truthy. *)
Definition truthy (v : option JsVal) : bool :=
  match v with
  | None => false
  | Some JNull => false
  | Some (JBool b) => b
  | Some (JNum n) => negb (n =? 0)
  | Some (JStr s) => negb (String.eqb s EmptyString)
  | Some (JDoc _) => true
  | Some JObj => true
  end.

(** [v === s] for a string [s]. *)
Definition strict_eq_str (s : string) (v : option JsVal) : bool :=
  match v with
  | Some (JStr s') => String.eqb s s'
  | _ => false
  end.

(** ** [String.prototype.trim] *)

(** White space is the ASCII white space: tab, line feed, vertical tab,
    form feed, carriage return and space. *)

Definition is_ws (a : ascii) : bool :=
  let n := nat_of_ascii a in
  ((9 <=? n) && (n <=? 13) || (n =? 32))%nat.

Fixpoint trim_start (s : string) : string :=
  match s with
  | EmptyString => EmptyString
  | String a s' => if is_ws a then trim_start s' else s
  end.

Fixpoint trim_end (s : string) : string :=
  match s with
  | EmptyString => EmptyString
  | String a s' =>
      match trim_end s' with
      | EmptyString => if is_ws a then EmptyString else String a EmptyString
      | r => String a r
      end
  end.

Definition trim (s : string) : string := trim_end (trim_start s).

(** ** Errors a route can meet *)

Inductive Error : Type :=
| TypeError        (* a method called on null, undefined or a non-string *)
| HeadersSent      (* a second response on the same request *)
| ValidationError  (* Mongoose: a document fails its schema *)
| CastError        (* Mongoose: a value cannot be cast to the schema type *)
| DuplicateKey.    (* the store: a unique index is violated *)

(** ** Mongoose's cast to the schema type [String] *)

(** [null] stays [null] ([None]); strings stay; numbers and booleans are
    rendered by [toString]; an object with a non-empty string under [_id]
    is taken for a document and cast to that string; any other plain
    object is refused. *)
Definition castString (v : JsVal) : Error + option string :=
  match v with
  | JNull => inr None
  | JStr s => inr (Some s)
  | JBool b => inr (Some (if b then "true" else "false"))
  | JNum n => inr (Some (pretty n))
  | JDoc _id =>
      if String.eqb _id EmptyString then inl CastError else inr (Some _id)
  | JObj => inl CastError
  end.

(** A field that may be absent: absent and [null] both give no value. *)
Definition castField (v : option JsVal) : Error + option string :=
  match v with
  | None => inr None
  | Some w => castString w
  end.

(** ** models.js *)

Module BlogPost.

Record Author : Type := { firstName : string; lastName : string }.

(** A stored document of [blogPostSchema]. [title] is required when a
    document is created, yet an update can set it to [null]. *)
Record t : Type := {
  _id : string;
  author : Author;
  title : option string;
  content : option string;
  created : Z
}.

(** The JSON object [apiRepr] builds. *)
Record Repr : Type := {
  r_id : string;
  r_author : string;
  r_content : option string;
  r_title : option string;
  r_created : Z
}.

(** [blogPostSchema.virtual('authorName')] *)
Definition authorName (p : t) : string :=
  trim (firstName (author p) ++ " " ++ lastName (author p)).

(** [blogPostSchema.methods.apiRepr] *)
Definition apiRepr (p : t) : Repr :=
  {| r_id := _id p;
     r_author := authorName p;
     r_content := content p;
     r_title := title p;
     r_created := created p |}.

End BlogPost.

Module User.

(** A stored document of [UserSchema]; [password] is the digest. *)
Record t : Type := {
  _id : string;
  username : string;
  password : string;
  firstName : string;
  lastName : string
}.

Record Repr : Type := {
  r_username : string;
  r_firstName : string;
  r_lastName : string
}.

(** [x || ''] on a string. *)
Definition or_empty (s : string) : string :=
  if String.eqb s EmptyString then EmptyString else s.

(** [UserSchema.methods.apiRepr] *)
Definition apiRepr (u : t) : Repr :=
  {| r_username := or_empty (username u);
     r_firstName := or_empty (firstName u);
     r_lastName := or_empty (lastName u) |}.

(** [UserSchema.methods.validatePassword], over bcrypt's [compare]. *)
Definition validatePassword (compare : string → string → bool)
    (u : t) (pw : string) : bool :=
  compare pw (password u).

(** [UserSchema.statics.hashPassword], over bcrypt's [hash]. *)
Definition hashPassword (hash : string → string) (pw : string) : string :=
  hash pw.

End User.

#[global] Instance Author_eq_dec : EqDecision BlogPost.Author.
Proof. solve_decision. Defined.
#[global] Instance BlogPost_eq_dec : EqDecision BlogPost.t.
Proof. solve_decision. Defined.
#[global] Instance User_eq_dec : EqDecision User.t.
Proof. solve_decision. Defined.

(** ** HTTP requests and responses *)

Inductive Payload : Type :=
| BEmpty
| BText (s : string)
| BMessage (s : string)                 (* the object with one key, message *)
| BError (s : string)                   (* the object with one key, error *)
| BPost (r : BlogPost.Repr)
| BPosts (rs : list BlogPost.Repr)
| BUser (r : User.Repr).

Record Response : Type := { status : nat; payload : Payload }.

(** The Authorization header of a request, as passport-http takes it
    apart: absent; a value without a space, which has fewer than two
    parts; a first part that the test [/Basic/i] refuses; or a Basic
    scheme, with the text its second part decodes to from base64. *)
Inductive AuthorizationHeader : Type :=
| NoHeader
| OnePart
| OtherScheme
| Basic (credentials : string).

Record Request : Type := {
  params_id : string;
  body : gmap string JsVal;
  header : AuthorizationHeader
}.

(** [s.split(':')] *)
Fixpoint split_colon (s : string) : list string :=
  match s with
  | EmptyString => [EmptyString]
  | String a s' =>
      if Ascii.eqb a ":"%char
      then EmptyString :: split_colon s'
      else match split_colon s' with
           | piece :: pieces => String a piece :: pieces
           | [] => [String a EmptyString]
           end
  end.

(** The user name and the password passport-http reads from the header:
    the first two pieces of the credentials split at every colon. *)
Definition authorization (req : Request) : option (string * string) :=
  match header req with
  | Basic credentials =>
      match split_colon credentials with
      | userid :: password :: _ => Some (userid, password)
      | _ => None
      end
  | _ => None
  end.

(** The headers passport-http answers with 400: fewer than two parts, or
    Basic credentials without a colon. *)
Definition malformed (req : Request) : bool :=
  match header req with
  | OnePart => true
  | Basic credentials =>
      match split_colon credentials with
      | _ :: _ :: _ => false
      | _ => true
      end
  | _ => false
  end.

(** What the environment supplies to a request: the clock ([Date.now]) and
    the identifier the driver draws for a document that is inserted. *)
Record Env : Type := { now : Z; newId : string }.

Inductive Reason : Type := IncorrectUsername | IncorrectPassword.

(** ** The world a request runs in *)

Inductive StoreOp : Type :=
| UserFindOne (username : string)
| UserCount (username : string)
| UserCreate (username : string) (password firstName lastName : option JsVal)
| PostFind
| PostFindById (id : string)
| PostCreate (title content : option JsVal) (author : BlogPost.Author)
| PostFindByIdAndUpdate (id : string) (updated : gmap string JsVal)
| PostFindByIdAndRemove (id : string).

Inductive Event : Type :=
| EvSend (r : Response)          (* a response went out *)
| EvSendRefused (r : Response)   (* a response was attempted after one went out *)
| EvStore (op : StoreOp)         (* a store operation was called *)
| EvVerified (user : option User.t) (info : option Reason).
                                 (* the verify callback was called *)

Record World : Type := {
  res : option Response;
  posts : gmap string BlogPost.t;
  users : list User.t;
  trace : list Event
}.

Definition set_res (r : Response) (w : World) : World :=
  {| res := Some r; posts := posts w; users := users w; trace := trace w |}.
Definition set_posts (ps : gmap string BlogPost.t) (w : World) : World :=
  {| res := res w; posts := ps; users := users w; trace := trace w |}.
Definition set_users (us : list User.t) (w : World) : World :=
  {| res := res w; posts := posts w; users := us; trace := trace w |}.
Definition add_event (e : Event) (w : World) : World :=
  {| res := res w; posts := posts w; users := users w;
     trace := trace w ++ [e] |}.

(** ** The monad of a route: state and exceptions *)

Inductive Outcome (A : Type) : Type :=
| Ok (a : A)
| Throw (e : Error).
Arguments Ok {A} a.
Arguments Throw {A} e.

Definition M (A : Type) : Type := World → Outcome A * World.

#[global] Instance M_ret : MRet M := λ A a w, (Ok a, w).
#[global] Instance M_bind : MBind M := λ A B f m w,
  match m w with
  | (Ok a, w') => f a w'
  | (Throw e, w') => (Throw e, w')
  end.

Definition throw {A : Type} (e : Error) : M A := λ w, (Throw e, w).

(** [p.catch(h)]: [h] runs when any earlier stage of [p] threw. *)
Definition catch {A : Type} (m : M A) (h : Error → M A) : M A := λ w,
  match m w with
  | (Ok a, w') => (Ok a, w')
  | (Throw e, w') => h e w'
  end.

Definition get_world : M World := λ w, (Ok w, w).
Definition modify (f : World → World) : M unit := λ w, (Ok tt, f w).
Definition log (e : Event) : M unit := modify (add_event e).
Definition lift {A : Type} (r : Error + A) : M A :=
  match r with
  | inl e => throw e
  | inr a => mret a
  end.

(** [xs.forEach(f)] *)
Fixpoint forEach {A : Type} (xs : list A) (f : A → M unit) : M unit :=
  match xs with
  | [] => mret tt
  | x :: xs' => f x ;; forEach xs' f
  end.

(** [xs.findIndex(p)]; [None] is JavaScript's -1. *)
Fixpoint findIndex {A : Type} (p : A → bool) (xs : list A) : option nat :=
  match xs with
  | [] => None
  | x :: xs' => if p x then Some O else S <$> findIndex p xs'
  end.

(** ** Express: the response object *)

(** The first response goes out; any further one throws. *)
Definition send (r : Response) : M unit := λ w,
  match res w with
  | None => (Ok tt, add_event (EvSend r) (set_res r w))
  | Some _ => (Throw HeadersSent, add_event (EvSendRefused r) w)
  end.

(** [res.status(code).json(obj)]; Express drops the body of a 204 and of
    a 304. The call returns [res]. *)
Definition json (code : nat) (obj : Payload) : M unit :=
  send {| status := code;
          payload := if ((code =? 204) || (code =? 304))%nat
                     then BEmpty else obj |}.

(** An exception that leaves the route: the default error handler answers
    500 unless a response is out already. *)
Definition express (route : M unit) (w : World) : World :=
  match route w with
  | (Ok _, w') => w'
  | (Throw _, w') =>
      match res w' with
      | None => snd (send {| status := 500;
                             payload := BText "Internal Server Error" |} w')
      | Some _ => w'
      end
  end.

(** ** Mongoose: the two collections *)

(** The two queries the routes make on users. *)
Definition findByUsername (us : list User.t) (name : string) : option User.t :=
  List.find (λ u, String.eqb (User.username u) name) us.

Definition countByUsername (us : list User.t) (name : string) : nat :=
  List.length (List.filter (λ u, String.eqb (User.username u) name) us).

Section Server.

(** bcrypt's [compare] and [hash]; the test Mongoose applies when it
    casts a string to an ObjectId; and what Mongoose does to a post with
    the paths of a [$set] other than title and content (author, created,
    paths outside the schema). *)
Variable bcrypt_compare : string → string → bool.
Variable bcrypt_hash : string → string.
Variable isObjectId : string → bool.
Variable setOtherPaths : gmap string JsVal → BlogPost.t → Error + BlogPost.t.

Definition castObjectId (id : string) : M unit :=
  if isObjectId id then mret tt else throw CastError.

(** [User.findOne({username}).exec()] *)
Definition User_findOne (username : string) : M (option User.t) :=
  log (EvStore (UserFindOne username)) ;;
  w ← get_world;
  mret (findByUsername (users w) username).

(** [User.find({username}).count().exec()] *)
Definition User_count (username : string) : M nat :=
  log (EvStore (UserCount username)) ;;
  w ← get_world;
  mret (countByUsername (users w) username).

(** A required [String] path: cast, then present and not empty. *)
Definition requiredString (v : option JsVal) : M string :=
  match castField v with
  | inr (Some s) =>
      if String.eqb s EmptyString then throw ValidationError else mret s
  | _ => throw ValidationError
  end.

(** An optional [String] path of a new document. *)
Definition optionalString (v : option JsVal) : M (option string) :=
  match castField v with
  | inr o => mret o
  | inl _ => throw ValidationError
  end.

(** [User.create({username, password, firstName, lastName})]: the schema
    is checked, then the insert meets the unique index on [username]. *)
Definition User_create (env : Env) (username : string)
    (password firstName lastName : option JsVal) : M User.t :=
  log (EvStore (UserCreate username password firstName lastName)) ;;
  uname ← requiredString (Some (JStr username));
  digest ← requiredString password;
  first ← optionalString firstName;
  last ← optionalString lastName;
  w ← get_world;
  if existsb (λ u, String.eqb (User.username u) uname
                   || String.eqb (User._id u) (newId env)) (users w)
  then throw DuplicateKey
  else
    let user := {| User._id := newId env;
                   User.username := uname;
                   User.password := digest;
                   User.firstName := default EmptyString first;
                   User.lastName := default EmptyString last |} in
    modify (set_users (users w ++ [user])) ;;
    mret user.

(** [BlogPost.find().exec()] *)
Definition BlogPost_find : M (list BlogPost.t) :=
  log (EvStore PostFind) ;;
  w ← get_world;
  mret (snd <$> map_to_list (posts w)).

(** [BlogPost.findById(id).exec()] *)
Definition BlogPost_findById (id : string) : M (option BlogPost.t) :=
  log (EvStore (PostFindById id)) ;;
  castObjectId id ;;
  w ← get_world;
  mret (posts w !! id).

(** [BlogPost.create({title, content, author})] *)
Definition BlogPost_create (env : Env) (title content : option JsVal)
    (author : BlogPost.Author) : M BlogPost.t :=
  log (EvStore (PostCreate title content author)) ;;
  t ← requiredString title;
  c ← optionalString content;
  w ← get_world;
  match posts w !! newId env with
  | Some _ => throw DuplicateKey
  | None =>
      let post := {| BlogPost._id := newId env;
                     BlogPost.author := author;
                     BlogPost.title := Some t;
                     BlogPost.content := c;
                     BlogPost.created := now env |} in
      modify (set_posts (<[newId env := post]> (posts w))) ;;
      mret post
  end.

(** One path of a [$set]: keep the stored value when the path is not in
    the update, cast the new one otherwise. *)
Definition setPath (updated : gmap string JsVal) (path : string)
    (old : option string) : Error + option string :=
  match updated !! path with
  | None => inr old
  | Some v => castString v
  end.

(** The paths of a [$set] other than title and content. *)
Definition otherPaths (updated : gmap string JsVal) : gmap string JsVal :=
  delete "title" (delete "content" updated).

(** The other paths of a [$set] applied to a document; nothing to do when
    there are none. *)
Definition applyOtherPaths (updated : gmap string JsVal) (p : BlogPost.t)
    : Error + BlogPost.t :=
  if decide (otherPaths updated = ∅)
  then inr p
  else setOtherPaths (otherPaths updated) p.

(** [BlogPost.findByIdAndUpdate(id, {$set: updated}, {new: true}).exec()]:
    the id and the update are cast first; every path of the update is
    applied to the document, title and content by the cast to [String],
    the others as Mongoose has it; the result is the document after the
    update, or [null] when no document has this id. *)
Definition BlogPost_findByIdAndUpdate (id : string)
    (updated : gmap string JsVal) : M (option BlogPost.t) :=
  log (EvStore (PostFindByIdAndUpdate id updated)) ;;
  castObjectId id ;;
  _ ← lift (setPath updated "title" None);
  _ ← lift (setPath updated "content" None);
  w ← get_world;
  match posts w !! id with
  | None => mret None
  | Some p =>
      t ← lift (setPath updated "title" (BlogPost.title p));
      c ← lift (setPath updated "content" (BlogPost.content p));
      let p' := {| BlogPost._id := BlogPost._id p;
                   BlogPost.author := BlogPost.author p;
                   BlogPost.title := t;
                   BlogPost.content := c;
                   BlogPost.created := BlogPost.created p |} in
      p'' ← lift (applyOtherPaths updated p');
      modify (set_posts (<[id := p'']> (posts w))) ;;
      mret (Some p'')
  end.

(** [BlogPost.findByIdAndRemove(id).exec()] *)
Definition BlogPost_findByIdAndRemove (id : string) : M (option BlogPost.t) :=
  log (EvStore (PostFindByIdAndRemove id)) ;;
  castObjectId id ;;
  w ← get_world;
  modify (set_posts (delete id (posts w))) ;;
  mret (posts w !! id).

(** [doc.apiRepr()] on the result of a lookup, which may be [null]. *)
Definition apiRepr_of (doc : option BlogPost.t) : M BlogPost.Repr :=
  match doc with
  | Some p => mret (BlogPost.apiRepr p)
  | None => throw TypeError
  end.

(** [s.trim()] on a body field; only a string has the method. *)
Definition trim_of (v : option JsVal) : M string :=
  match v with
  | Some (JStr s) => mret (trim s)
  | _ => throw TypeError
  end.

(** ** passport: the Basic strategy and the auth gate *)

(** The function given to [new BasicStrategy(...)]. Its first stage
    returns what [callback] returns ([undefined]) when no user is found,
    and the second stage reads that as [isValid]. *)
Definition strategy (username password : string)
    (callback : option User.t → option Reason → M unit) : M unit :=
  user ← User_findOne username;
  isValid ← match user with
            | None => callback None (Some IncorrectUsername) ;; mret false
            | Some u => mret (User.validatePassword bcrypt_compare u password)
            end;
  if negb isValid
  then callback None (Some IncorrectPassword)
  else callback user None.

Definition unauthorized : Response :=
  {| status := 401; payload := BText "Unauthorized" |}.

Definition bad_request : Response :=
  {| status := 400; payload := BText "Bad Request" |}.

(** [passport.authenticate('basic', {session: false})] in front of a
    route, with passport-http's reading of the header: no header or
    another scheme is challenged (401); a header of one part, or
    credentials that split at the colons into fewer than two pieces, is
    answered 400; the first piece is the user name and the second the
    password, whatever follows; an empty user name or password is
    challenged; otherwise the strategy decides, and its callback either
    challenges or sets [req.user] and goes on. *)
Definition passport_authenticate (req : Request)
    (next : User.t → M unit) : M unit :=
  let fail := send unauthorized in
  let fail400 := send bad_request in
  let verified (user : option User.t) (info : option Reason) : M unit :=
    log (EvVerified user info) ;;
    match user with
    | None => fail
    | Some u => next u
    end in
  match header req with
  | NoHeader => fail
  | OnePart => fail400
  | OtherScheme => fail
  | Basic credentials =>
      match split_colon credentials with
      | userid :: password :: _ =>
          if String.eqb userid EmptyString || String.eqb password EmptyString
          then fail
          else strategy userid password verified
      | _ => fail400
      end
  end.

(** ** The routes of server.js *)

Definition dquote : string := String "034"%char EmptyString.

Definition requiredUserFields : list string :=
  ["username"; "password"; "firstName"; "lastName"].

(** [app.post('/users', ...)] *)
Definition post_users (req : Request) (env : Env) : M unit :=
  let requiredFields := requiredUserFields in
  match findIndex (λ field, negb (truthy (body req !! field)))
                  requiredFields with
  | Some missingIndex =>
      json 400 (BMessage ("Missing field: " ++
                          default "undefined" (requiredFields !! missingIndex)))
  | None =>
      username ← trim_of (body req !! "username");
      password ← trim_of (body req !! "password");
      catch
        (count ← User_count username;
         hash ← (if (0 <? count)%nat
                 then json 422 (BMessage "username already taken") ;;
                      mret JObj
                 else mret (JStr (User.hashPassword bcrypt_hash password)));
         user ← User_create env username (Some hash)
                  (body req !! "firstName") (body req !! "lastName");
         json 201 (BUser (User.apiRepr user)))
        (λ err, json 500 (BMessage "Internal server error"))
  end.

(** [app.get('/posts', ...)] *)
Definition get_posts : M unit :=
  catch
    (posts ← BlogPost_find;
     json 200 (BPosts (BlogPost.apiRepr <$> posts)))
    (λ err, json 500 (BError "something went terribly wrong")).

(** [app.get('/posts/:id', ...)] *)
Definition get_posts_id (req : Request) : M unit :=
  catch
    (post ← BlogPost_findById (params_id req);
     repr ← apiRepr_of post;
     json 200 (BPost repr))
    (λ err, json 500 (BError "something went horribly awry")).

Definition requiredPostFields : list string := ["title"; "content"].

(** [app.post('/posts', ...)], behind the auth gate *)
Definition post_posts (user : User.t) (req : Request) (env : Env) : M unit :=
  let requiredFields := requiredPostFields in
  forEach requiredFields (λ field,
    if negb (bool_decide (is_Some (body req !! field)))
    then json 400 (BError ("Missing " ++ dquote ++ field ++ dquote ++
                           " in request body"))
    else mret tt) ;;
  catch
    (blogPost ← BlogPost_create env
                  (body req !! "title") (body req !! "content")
                  {| BlogPost.firstName := User.firstName user;
                     BlogPost.lastName := User.lastName user |};
     json 201 (BPost (BlogPost.apiRepr blogPost)))
    (λ err, json 500 (BError "Something went wrong")).

(** [app.delete('/posts/:id', ...)], behind the auth gate *)
Definition delete_posts_id (user : User.t) (req : Request) : M unit :=
  catch
    (BlogPost_findByIdAndRemove (params_id req) ;;
     json 204 (BMessage "success"))
    (λ err, json 500 (BError "something went terribly wrong")).

Definition updateableFields : list string := ["title"; "content"].

(** The object [updated] of the PUT route. *)
Definition collect_updated (b : gmap string JsVal) : gmap string JsVal :=
  foldl (λ updated field,
           match b !! field with
           | Some v => <[field := v]> updated
           | None => updated
           end) ∅ updateableFields.

(** [app.put('/posts/:id', ...)], behind the auth gate *)
Definition put_posts_id (user : User.t) (req : Request) : M unit :=
  (if negb (negb (String.eqb (params_id req) EmptyString)
            && truthy (body req !! "id")
            && strict_eq_str (params_id req) (body req !! "id"))
   then json 400 (BError
          "Request path id and request body id values must match")
   else mret tt) ;;
  let updated := collect_updated (body req) in
  catch
    (updatedPost ← BlogPost_findByIdAndUpdate (params_id req) updated;
     repr ← apiRepr_of updatedPost;
     json 201 (BPost repr))
    (λ err, json 500 (BMessage "Something went wrong")).

(** [app.use('*', ...)] *)
Definition not_found : M unit := json 404 (BMessage "Not Found").

Inductive Route : Type :=
| POST_users
| GET_posts
| GET_posts_id
| POST_posts
| DELETE_posts_id
| PUT_posts_id
| Unmatched.

Definition app (route : Route) (req : Request) (env : Env) : M unit :=
  match route with
  | POST_users => post_users req env
  | GET_posts => get_posts
  | GET_posts_id => get_posts_id req
  | POST_posts => passport_authenticate req (λ user, post_posts user req env)
  | DELETE_posts_id =>
      passport_authenticate req (λ user, delete_posts_id user req)
  | PUT_posts_id => passport_authenticate req (λ user, put_posts_id user req)
  | Unmatched => not_found
  end.

(** A request arrives: no response yet, nothing traced. *)
Definition arrive (ps : gmap string BlogPost.t) (us : list User.t) : World :=
  {| res := None; posts := ps; users := us; trace := [] |}.

(** One request, from arrival to the end of its route. *)
Definition serve (route : Route) (req : Request) (env : Env)
    (ps : gmap string BlogPost.t) (us : list User.t) : World :=
  express (app route req env) (arrive ps us).

(** ** The auth gate: [authenticate] *)

(** What the strategy reports: the arguments of the first call of its
    callback, which is the call passport answers. *)
Definition authenticate (us : list User.t) (username password : string)
    : option (Reason + User.t) :=
  let w := snd (strategy username password
                  (λ user info, log (EvVerified user info))
                  (arrive ∅ us)) in
  match List.find (λ e, match e with EvVerified _ _ => true | _ => false end)
                  (trace w) with
  | Some (EvVerified (Some u) _) => Some (inr u)
  | Some (EvVerified None (Some r)) => Some (inl r)
  | _ => None
  end.

(** The user a request is let through as, if any: what passport does
    with the request's credentials. *)
Definition authenticated_as (us : list User.t) (req : Request)
    : option User.t :=
  match authorization req with
  | None => None
  | Some (userid, password) =>
      if String.eqb userid EmptyString || String.eqb password EmptyString
      then None
      else match authenticate us userid password with
           | Some (inr u) => Some u
           | _ => None
           end
  end.

Definition protected (route : Route) : bool :=
  match route with
  | POST_posts | DELETE_posts_id | PUT_posts_id => true
  | _ => false
  end.

End Server.

(** What passport answers to a request it does not let through. *)
Definition refusal (req : Request) : Response :=
  if malformed req then bad_request else unauthorized.

#[global] Instance Route_eq_dec : EqDecision Route.
Proof. solve_decision. Defined.

(** ** Reading a trace *)

(** What passport traces for a request it lets through. *)
Definition auth_gate_trace (req : Request) (usr : User.t) : list Event :=
  match authorization req with
  | Some (userid, _) =>
      [EvStore (UserFindOne userid); EvVerified (Some usr) None]
  | None => []
  end.

(** The store was asked to create a post. *)
Definition is_post_create (e : Event) : bool :=
  match e with
  | EvStore (PostCreate _ _ _) => true
  | _ => false
  end.

(** A computation that leaves the users as they are, however it ends. *)
Definition keeps_users {A : Type} (m : M A) : Prop :=
  ∀ w o w', m w = (o, w') → users w' = users w.

(** ** A concrete deployment

    A stand-in for bcrypt (the digest wraps the password), ObjectIds as 24
    hexadecimal digits, the user the tests seed, and a few requests. *)

Module Scenario.

Definition toy_hash (pw : string) : string := "bcrypt(" ++ pw ++ ")".

Definition toy_compare (pw digest : string) : bool :=
  String.eqb (toy_hash pw) digest.

Definition is_hex (a : ascii) : bool :=
  let n := nat_of_ascii a in
  ((48 <=? n) && (n <=? 57) || (97 <=? n) && (n <=? 102))%nat.

Fixpoint all_hex (s : string) : bool :=
  match s with
  | EmptyString => true
  | String a s' => is_hex a && all_hex s'
  end.

Definition hex24 (s : string) : bool :=
  (String.length s =? 24)%nat && all_hex s.

(** A store that takes the other paths of a [$set] for paths outside
    the schema and drops them. *)
Definition drop_paths (updated : gmap string JsVal) (p : BlogPost.t)
    : Error + BlogPost.t :=
  inr p.

Definition run_request :=
  serve toy_compare toy_hash hex24 drop_paths.

Definition testboy : User.t :=
  {| User._id := "5a00000000000000000000aa";
     User.username := "testboy";
     User.password := toy_hash "AliensExist";
     User.firstName := "Kyle";
     User.lastName := "S" |}.

(** A user registered with a space in front of the first name. *)
Definition spaced : User.t :=
  {| User._id := "5a00000000000000000000ab";
     User.username := "spaced";
     User.password := toy_hash "pw";
     User.firstName := " Kyle";
     User.lastName := "S" |}.

Definition post1_id : string := "5a0000000000000000000001".
Definition post2_id : string := "5a0000000000000000000002".

Definition post1 : BlogPost.t :=
  {| BlogPost._id := post1_id;
     BlogPost.author := {| BlogPost.firstName := "Kyle";
                           BlogPost.lastName := "S" |};
     BlogPost.title := Some "Old title";
     BlogPost.content := Some "Old content";
     BlogPost.created := 1500000000000 |}.

Definition store1 : gmap string BlogPost.t := {[ post1_id := post1 ]}.

Definition env2 : Env := {| now := 1500000000999; newId := post2_id |}.

Definition good_auth : option (string * string) :=
  Some ("testboy", "AliensExist").
Definition wrong_password : option (string * string) :=
  Some ("testboy", "AliensExista").
Definition unknown_user : option (string * string) :=
  Some ("nobody", "AliensExist").

Definition new_post_body : gmap string JsVal :=
  {[ "title" := JStr "T"; "content" := JStr "C";
     "author" := JObj ]}.

(** A request as a client builds it: the credentials of the header are
    the user name, a colon and the password. *)
Definition request (id : string) (b : gmap string JsVal)
    (auth : option (string * string)) : Request :=
  {| params_id := id; body := b;
     header := match auth with
               | Some (userid, password) => Basic (userid ++ ":" ++ password)
               | None => NoHeader
               end |}.

Definition new_user_body : gmap string JsVal :=
  {[ "username" := JStr " testboy "; "password" := JStr "hi";
     "firstName" := JStr "William"; "lastName" := JStr "twobit" ]}.

End Scenario.

(** ** The server's life cycle: [runServer] and [closeServer] *)

Module Lifecycle.

(** The process holds the Mongoose connection and the variable [server],
    which is [undefined] until [runServer] assigns it; a server handle is
    either listening or not. *)
Record Process : Type := {
  connected : bool;
  server : option bool
}.

(** What the outside does to one call of [runServer]: whether
    [mongoose.connect] calls back with an error, and whether the server
    emits [error] instead of starting to listen. *)
Record Outside : Type := { connect_fails : bool; listen_fails : bool }.

Inductive Failure : Type :=
| ConnectFailed     (* the error of mongoose.connect *)
| ListenFailed      (* the error event of the server *)
| NotRunning        (* server.close on a server that does not listen *)
| ServerUndefined.  (* server.close while server is undefined *)

Inductive Settled : Type :=
| Resolved
| Rejected (f : Failure).

Definition initial : Process := {| connected := false; server := None |}.

(** [runServer(databaseUrl, port)] *)
Definition runServer (o : Outside) (p : Process) : Settled * Process :=
  if connect_fails o
  then (Rejected ConnectFailed, p)
  else
    if listen_fails o
    then (Rejected ListenFailed,
          {| connected := false; server := Some false |})
    else (Resolved, {| connected := true; server := Some true |}).

(** [closeServer()] *)
Definition closeServer (p : Process) : Settled * Process :=
  let p1 := {| connected := false; server := server p |} in
  match server p1 with
  | None => (Rejected ServerUndefined, p1)
  | Some false => (Rejected NotRunning, p1)
  | Some true => (Resolved, {| connected := false; server := Some false |})
  end.

End Lifecycle.

(** ** Colons in credentials *)


(** * Properties *)

(** Unfolding the monad and the primitive operations of a route. *)
Ltac unfold_m :=
  unfold mbind, M_bind, mret, M_ret, log, modify, get_world, throw, catch,
    lift, json, send, castObjectId in *.

Ltac run := repeat (unfold_m; cbn in * ).

(** Opening a served request, down to the route it runs. *)
Ltac unfold_serve := unfold serve, express.
Ltac unfold_app := unfold app.
Ltac unfold_route := unfold_serve; unfold_app.
Ltac unfold_authenticated_as := unfold authenticated_as.
Ltac unfold_passport := unfold passport_authenticate.

#[local] Arguments findByUsername : simpl never.
#[local] Arguments countByUsername : simpl never.

Section Properties.

Variable bcrypt_compare : string → string → bool.
Variable bcrypt_hash : string → string.
Variable isObjectId : string → bool.
Variable setOtherPaths : gmap string JsVal → BlogPost.t → Error + BlogPost.t.

Local Abbreviation serve :=
  (serve bcrypt_compare bcrypt_hash isObjectId setOtherPaths).
Local Abbreviation app :=
  (app bcrypt_compare bcrypt_hash isObjectId setOtherPaths).
Local Abbreviation authenticate := (authenticate bcrypt_compare).
Local Abbreviation authenticated_as := (authenticated_as bcrypt_compare).
Local Abbreviation passport_authenticate :=
  (passport_authenticate bcrypt_compare).

(** ** The auth gate *)

Lemma authenticate_unfold us username password :
  authenticate us username password =
  match findByUsername us username with
  | None => Some (inl IncorrectUsername)
  | Some u =>
      if bcrypt_compare password (User.password u)
      then Some (inr u)
      else Some (inl IncorrectPassword)
  end.
Proof.
  unfold authenticate, strategy, User_findOne, User.validatePassword.
  run. destruct (findByUsername us username) as [u|]; run; [|done].
  destruct (bcrypt_compare password (User.password u)); done.
Qed.

(** A request that is not let through: passport answers 401, or 400 to
    a malformed header, and the route behind it never runs. *)
Lemma auth_gate_fail us ps req next :
  authenticated_as us req = None →
  ∃ o tr, passport_authenticate req next (arrive ps us) =
          (o, {| res := Some (refusal req); posts := ps; users := us;
                 trace := tr |}).
Proof.
  unfold authenticated_as, authorization, passport_authenticate, refusal,
    malformed.
  destruct (header req) as [| | |text]; try (run; by eauto).
  destruct (split_colon text) as [|userid [|password rest]];
    try (run; by eauto).
  destruct (_ || _); [run; by eauto|].
  rewrite authenticate_unfold.
  unfold strategy, User_findOne, User.validatePassword. run.
  destruct (findByUsername us userid) as [u|]; run; [|by eauto].
  destruct (bcrypt_compare password (User.password u)); run; [done|by eauto].
Qed.

(** A request that is let through as [usr]: the route runs as [usr], on
    the store as it was, with no response sent yet. *)
Lemma auth_gate_pass us ps req next usr :
  authenticated_as us req = Some usr →
  passport_authenticate req next (arrive ps us) =
  next usr {| res := None; posts := ps; users := us;
              trace := auth_gate_trace req usr |}.
Proof.
  unfold authenticated_as, authorization, passport_authenticate,
    auth_gate_trace, authorization.
  destruct (header req) as [| | |text]; try done.
  destruct (split_colon text) as [|userid [|password rest]]; try done.
  destruct (_ || _); [done|].
  rewrite authenticate_unfold.
  unfold strategy, User_findOne, User.validatePassword. run.
  destruct (findByUsername us userid) as [u|]; run; [|done].
  destruct (bcrypt_compare password (User.password u)); run; [|done].
  by intros [= ->].
Qed.

Lemma auth_gate_closed route req env ps us :
  protected route = true →
  authenticated_as us req = None →
  let w := serve route req env ps us in
  res w = Some (refusal req) ∧ posts w = ps ∧ users w = us.
Proof.
  intros Hp Hfail. unfold_serve.
  destruct route; try discriminate Hp; unfold_app;
    match goal with
    | |- context [passport_authenticate req ?next _] =>
        destruct (auth_gate_fail us ps req next Hfail) as (o & tr & ->)
    end; by destruct o.
Qed.

(** A header that yields a user name and a password is not malformed. *)
Lemma authorization_well_formed req userid password :
  authorization req = Some (userid, password) → refusal req = unauthorized.
Proof.
  unfold authorization, refusal, malformed.
  destruct (header req) as [| | |text]; try done.
  by destruct (split_colon text) as [|? [|? ?]].
Qed.

(** ** C1 *)


(** ** C2 *)

(** C2. The result of [authenticate]: IncorrectUsername when no user has
    the name; otherwise IncorrectPassword when bcrypt's compare of the
    supplied password with the stored digest of that user is false;
    otherwise success with the stored user (its id, firstName, lastName
    and username). *)
Theorem authenticate_result us username password :
  authenticate us username password =
  match findByUsername us username with
  | None => Some (inl IncorrectUsername)
  | Some u =>
      if bcrypt_compare password (User.password u)
      then Some (inr u)
      else Some (inl IncorrectPassword)
  end.
Proof.
  unfold authenticate, strategy, User_findOne, User.validatePassword.
  run. destruct (findByUsername us username) as [u|]; run; [|done].
  destruct (bcrypt_compare password (User.password u)); done.
Qed.

(** ** C3 *)

(** C3. Two requests to protected routes, one with an unknown user name
    and one with a wrong password for a known user, get the same response:
    401 with the fixed text, which carries no reason. *)
Theorem auth_failures_indistinguishable
    route1 route2 req1 req2 env1 env2 ps1 ps2 us u1 p1 u2 p2 :
  protected route1 = true →
  protected route2 = true →
  authorization req1 = Some (u1, p1) →
  authorization req2 = Some (u2, p2) →
  authenticate us u1 p1 = Some (inl IncorrectUsername) →
  authenticate us u2 p2 = Some (inl IncorrectPassword) →
  res (serve route1 req1 env1 ps1 us) = res (serve route2 req2 env2 ps2 us) ∧
  res (serve route1 req1 env1 ps1 us) =
    Some {| status := 401; payload := BText "Unauthorized" |}.
Proof.
  intros Hp1 Hp2 Ha1 Ha2 Hf1 Hf2.
  assert (authenticated_as us req1 = None) as H1.
  { unfold_authenticated_as. rewrite Ha1, Hf1. by destruct (_ || _). }
  assert (authenticated_as us req2 = None) as H2.
  { unfold_authenticated_as. rewrite Ha2, Hf2. by destruct (_ || _). }
  destruct (auth_gate_closed route1 req1 env1 ps1 us Hp1 H1) as (-> & _).
  destruct (auth_gate_closed route2 req2 env2 ps2 us Hp2 H2) as (-> & _).
  rewrite (authorization_well_formed _ _ _ Ha1).
  by rewrite (authorization_well_formed _ _ _ Ha2).
Qed.

(** ** Registration: POST /users *)

Lemma findIndex_None {A} (p : A → bool) (xs : list A) :
  (∀ x, x ∈ xs → p x = false) → findIndex p xs = None.
Proof.
  induction xs as [|x xs IH]; intros Hall; [done|]. cbn.
  rewrite (Hall x) by apply list_elem_of_here.
  rewrite IH; [done|]. intros y Hy. apply Hall. by apply list_elem_of_further.
Qed.

Lemma findIndex_Some {A} (p : A → bool) (xs : list A) x :
  x ∈ xs → p x = true →
  ∃ i y, findIndex p xs = Some i ∧ xs !! i = Some y ∧ p y = true ∧
         ∀ j z, (j < i)%nat → xs !! j = Some z → p z = false.
Proof.
  induction xs as [|a xs IH]; intros Hin Hp; [by apply elem_of_nil in Hin|].
  cbn. destruct (p a) eqn:Ha.
  - exists O, a. repeat split; try done. intros j z Hj. lia.
  - apply elem_of_cons in Hin as [->|Hin]; [congruence|].
    destruct (IH Hin Hp) as (i & y & -> & Hy & Hpy & Hbefore).
    exists (S i), y. repeat split; try done.
    intros [|j] z Hj Hz; cbn in Hz; [congruence|].
    apply (Hbefore j z); [lia|done].
Qed.

(** C7, as the code has it. When one of username, password, firstName,
    lastName is missing from the body or has a value JavaScript reads as
    false (the empty string, null, false, 0), POST /users answers 400, the
    message names the first of the four fields, in that order, that is
    missing or has such a value, and no user is created. When the fields
    that are present are strings, as a registration sends them, that
    field is itself missing or empty and every field before it is a
    non-empty string. *)
Theorem post_users_missing_field req env ps us f :
  f ∈ requiredUserFields →
  truthy (body req !! f) = false →
  let w := serve POST_users req env ps us in
  ∃ i g,
    requiredUserFields !! i = Some g ∧
    truthy (body req !! g) = false ∧
    (∀ j h, (j < i)%nat → requiredUserFields !! j = Some h →
            truthy (body req !! h) = true) ∧
    res w = Some {| status := 400;
                    payload := BMessage ("Missing field: " ++ g) |} ∧
    users w = us ∧ posts w = ps ∧
    ((∀ h v, h ∈ requiredUserFields → body req !! h = Some v →
             ∃ s, v = JStr s) →
     (body req !! g = None ∨ body req !! g = Some (JStr EmptyString)) ∧
     (∀ j h, (j < i)%nat → requiredUserFields !! j = Some h →
             ∃ s, body req !! h = Some (JStr s) ∧ s ≠ EmptyString)).
Proof.
  intros Hin Hmiss.
  assert (negb (truthy (body req !! f)) = true) as Hf.
  { by rewrite Hmiss. }
  destruct (findIndex_Some (λ field, negb (truthy (body req !! field)))
              requiredUserFields f Hin Hf) as (i & g & Hi & Hg & Hpg & Hbefore).
  exists i, g. cbv zeta.
  unfold_route; unfold post_users.
  rewrite Hi, Hg. cbn [default].
  assert (∀ j h, (j < i)%nat → requiredUserFields !! j = Some h →
                 truthy (body req !! h) = true) as Hbefore'.
  { intros j h Hj Hh. apply negb_false_iff. eauto. }
  apply negb_true_iff in Hpg.
  split_and!; try done.
  intros Htyped. split.
  - destruct (body req !! g) as [v|] eqn:Hv; [|by left].
    destruct (Htyped g v) as [s ->]; [by eapply list_elem_of_lookup_2|done|].
    right. cbn in Hpg. apply negb_false_iff, String.eqb_eq in Hpg.
    by subst.
  - intros j h Hj Hh. specialize (Hbefore' j h Hj Hh).
    destruct (body req !! h) as [v|] eqn:Hv; [|done].
    destruct (Htyped h v) as [s ->]; [by eapply list_elem_of_lookup_2|done|].
    exists s. split; [done|]. cbn in Hbefore'.
    apply negb_true_iff, String.eqb_neq in Hbefore'. done.
Qed.

(** C6, as the code has it. A POST /users request whose username is a
    string that, trimmed, is already the name of a stored user: no user is
    added and the answer is never 201; when moreover the request passes
    the required-field test and its password is a string, the answer is
    422 with the message username already taken. *)
Theorem post_users_duplicate req env ps us username :
  body req !! "username" = Some (JStr username) →
  (0 < countByUsername us (trim username))%nat →
  let w := serve POST_users req env ps us in
  users w = us ∧ posts w = ps ∧
  (∀ r, res w = Some r → status r ≠ 201%nat) ∧
  ((∀ f, f ∈ requiredUserFields → truthy (body req !! f) = true) →
   (∃ password, body req !! "password" = Some (JStr password)) →
   res w = Some {| status := 422;
                   payload := BMessage "username already taken" |}).
Proof.
  intros Hu Hcount. cbv zeta.
  unfold_route; unfold post_users.
  destruct (findIndex _ requiredUserFields) as [i|] eqn:Hfind.
  { assert ((∀ f, f ∈ requiredUserFields → truthy (body req !! f) = true) →
            False) as Hno.
    { intros Hall. rewrite findIndex_None in Hfind; [done|].
      intros x Hx. by rewrite (Hall x Hx). }
    clear Hfind. run. split_and!; try done. by intros r [= <-]. }
  rewrite Hu. unfold trim_of at 1. run.
  destruct (body req !! "password") as [[| | |password| |]|] eqn:Hp; run.
  1-3, 5-7: split_and!; try done;
    first [by intros r [= <-] | by intros _ [? [=]]].
  unfold User_count, User_create. run.
  destruct (countByUsername us (trim username)) as [|n]; [lia|]. run.
  destruct (String.eqb (trim username) EmptyString); run.
  all: split_and!; try done; by intros r [= <-].
Qed.

(** ** Reading and updating posts *)

(** C9. GET /posts/:id for an id that no stored post has is answered 500
    (the route's own error response), not 404 and not 200. *)
Theorem get_post_absent_is_500 req env ps us :
  ps !! params_id req = None →
  let w := serve GET_posts_id req env ps us in
  res w = Some {| status := 500;
                  payload := BError "something went horribly awry" |} ∧
  posts w = ps ∧ users w = us.
Proof.
  intros Habs. cbv zeta.
  unfold_route; unfold get_posts_id,
    BlogPost_findById.
  run. destruct (isObjectId (params_id req)); run; [|done].
  rewrite Habs. by run.
Qed.

Lemma collect_updated_title b : collect_updated b !! "title" = b !! "title".
Proof.
  unfold collect_updated. cbn.
  destruct (b !! "title") eqn:Ht, (b !! "content") eqn:Hc;
    by simplify_map_eq.
Qed.

Lemma collect_updated_content b :
  collect_updated b !! "content" = b !! "content".
Proof.
  unfold collect_updated. cbn.
  destruct (b !! "title") eqn:Ht, (b !! "content") eqn:Hc;
    by simplify_map_eq.
Qed.

Lemma setPath_title b old :
  setPath (collect_updated b) "title" old =
  match b !! "title" with None => inr old | Some v => castString v end.
Proof. unfold setPath. by rewrite collect_updated_title. Qed.

Lemma setPath_content b old :
  setPath (collect_updated b) "content" old =
  match b !! "content" with None => inr old | Some v => castString v end.
Proof. unfold setPath. by rewrite collect_updated_content. Qed.

(** The route hands the store no path but title and content. *)
Lemma otherPaths_collect b : otherPaths (collect_updated b) = ∅.
Proof.
  apply map_eq. intros k. rewrite lookup_empty. unfold otherPaths.
  destruct (decide (k = "title")) as [->|Ht]; [apply lookup_delete_eq|].
  rewrite lookup_delete_ne by done.
  destruct (decide (k = "content")) as [->|Hc]; [apply lookup_delete_eq|].
  rewrite lookup_delete_ne by done.
  unfold collect_updated. cbn.
  destruct (b !! "title"), (b !! "content"); by simplify_map_eq.
Qed.

Lemma applyOtherPaths_collect b p :
  applyOtherPaths setOtherPaths (collect_updated b) p = inr p.
Proof. unfold applyOtherPaths. by rewrite decide_True by apply otherPaths_collect. Qed.

#[local] Arguments setPath : simpl never.
#[local] Arguments collect_updated : simpl never.
#[local] Arguments applyOtherPaths : simpl never.

(** The id test of the PUT route passes. *)
Lemma ids_match req :
  params_id req ≠ EmptyString →
  body req !! "id" = Some (JStr (params_id req)) →
  negb (negb (String.eqb (params_id req) EmptyString)
        && truthy (body req !! "id")
        && strict_eq_str (params_id req) (body req !! "id")) = false.
Proof.
  intros Hne ->. cbn. apply String.eqb_neq in Hne. rewrite Hne.
  by rewrite String.eqb_refl.
Qed.

(** C10. An authenticated PUT /posts/:id with matching path and body ids,
    for an id that no stored post has, is answered 500 with the route's
    own error message, not 404 and not 201; nothing is stored: the route
    calls the store's update, which changes nothing, and then its catch
    sends the 500. *)
Theorem put_post_absent_is_500 req env ps us usr :
  authenticated_as us req = Some usr →
  params_id req ≠ EmptyString →
  body req !! "id" = Some (JStr (params_id req)) →
  ps !! params_id req = None →
  let w := serve PUT_posts_id req env ps us in
  let r500 := {| status := 500; payload := BMessage "Something went wrong" |} in
  res w = Some r500 ∧
  posts w = ps ∧ users w = us ∧
  trace w =
    (auth_gate_trace req usr ++
     [EvStore (PostFindByIdAndUpdate (params_id req)
                 (collect_updated (body req)));
      EvSend r500])%list.
Proof.
  intros Hauth Hne Hid Habs. cbv zeta.
  unfold_route.
  rewrite (auth_gate_pass us ps req (λ user, put_posts_id isObjectId setOtherPaths user req)
              usr Hauth).
  unfold put_posts_id, BlogPost_findByIdAndUpdate.
  rewrite (ids_match req Hne Hid). run.
  destruct (isObjectId (params_id req)); run.
  2: { split_and!; try done. by rewrite <- app_assoc. }
  rewrite !setPath_title, !setPath_content.
  destruct (body req !! "title") as [v|]; [destruct (castString v)|]; run.
  1: { split_and!; try done. by rewrite <- app_assoc. }
  all: destruct (body req !! "content") as [v'|]; [destruct (castString v')|];
    run.
  all: try rewrite Habs; run.
  all: split_and!; try done; by rewrite <- app_assoc.
Qed.

(** How the 500 of an absent id comes about when the id is well formed and
    the update casts: the update finds no document and gives [null], and
    [apiRepr] on [null] throws. *)
Lemma update_absent_gives_null id updated w t c :
  isObjectId id = true →
  posts w !! id = None →
  setPath updated "title" None = inr t →
  setPath updated "content" None = inr c →
  BlogPost_findByIdAndUpdate isObjectId setOtherPaths id updated w =
    (Ok None, add_event (EvStore (PostFindByIdAndUpdate id updated)) w).
Proof.
  intros Hid Habs Ht Hc. unfold BlogPost_findByIdAndUpdate. run.
  rewrite Hid. run. rewrite Ht, Hc. run. by rewrite Habs.
Qed.

Lemma apiRepr_of_null w : apiRepr_of None w = (Throw TypeError, w).
Proof. done. Qed.

(** C5. A PUT /posts/:id with matching path and body ids, for a stored
    post: afterwards the post is still stored under its id with the same
    author and creation time; its title is the old one when the body has
    no title, and likewise its content; every other post and every user is
    as before. When the request is authenticated, the id is well formed
    and the values given for title and content cast to strings, the answer
    is 201 with the updated post, whose title and content are the values
    given. *)
Theorem put_post_frame req env ps us p :
  params_id req ≠ EmptyString →
  body req !! "id" = Some (JStr (params_id req)) →
  ps !! params_id req = Some p →
  let w := serve PUT_posts_id req env ps us in
  ∃ p',
    posts w !! params_id req = Some p' ∧
    BlogPost._id p' = BlogPost._id p ∧
    BlogPost.author p' = BlogPost.author p ∧
    BlogPost.created p' = BlogPost.created p ∧
    (body req !! "title" = None → BlogPost.title p' = BlogPost.title p) ∧
    (body req !! "content" = None →
     BlogPost.content p' = BlogPost.content p) ∧
    (∀ id, id ≠ params_id req → posts w !! id = ps !! id) ∧
    users w = us ∧
    (is_Some (authenticated_as us req) →
     isObjectId (params_id req) = true →
     (∀ v, body req !! "title" = Some v → ∃ t, castString v = inr t) →
     (∀ v, body req !! "content" = Some v → ∃ c, castString v = inr c) →
     res w = Some {| status := 201; payload := BPost (BlogPost.apiRepr p') |} ∧
     (∀ v, body req !! "title" = Some v →
           castString v = inr (BlogPost.title p')) ∧
     (∀ v, body req !! "content" = Some v →
           castString v = inr (BlogPost.content p'))).
Proof.
  intros Hne Hid Hp. cbv zeta.
  destruct (authenticated_as us req) as [usr|] eqn:Hauth.
  2: { destruct (auth_gate_closed PUT_posts_id req env ps us eq_refl Hauth)
         as (_ & -> & ->).
       exists p. by split_and!. }
  unfold_route.
  rewrite (auth_gate_pass us ps req (λ user, put_posts_id isObjectId setOtherPaths user req)
              usr Hauth).
  unfold put_posts_id, BlogPost_findByIdAndUpdate.
  rewrite (ids_match req Hne Hid). run.
  destruct (isObjectId (params_id req)) eqn:Hoid; run.
  2: { exists p. by split_and!. }
  rewrite !setPath_title, !setPath_content.
  destruct (body req !! "title") as [v|] eqn:Ht;
    [destruct (castString v) as [e|t] eqn:Hcv|]; run.
  1: { exists p. split_and!; try done. intros _ _ Hcast _.
       destruct (Hcast v eq_refl) as [t' Ht']. congruence. }
  all: destruct (body req !! "content") as [v'|] eqn:Hc;
    [destruct (castString v') as [e'|c] eqn:Hcv'|]; run.
  all: try (exists p; split_and!; try done; intros _ _ _ Hcast;
            destruct (Hcast v' eq_refl) as [c' Hc']; congruence).
  all: rewrite Hp; run; rewrite !setPath_title, !setPath_content;
    rewrite ?Ht, ?Hc, ?Hcv, ?Hcv'; run; rewrite applyOtherPaths_collect; run.
  all: eexists; split; [apply lookup_insert_eq|]; cbn.
  all: split_and!; try done; try congruence.
  all: try (intros id Hid'; by rewrite lookup_insert_ne).
  all: intros _ _ _ _; split_and!; try done; intros; congruence.
Qed.

(** ** Creating posts *)

(** The world an accepted POST /posts leaves behind. *)
Lemma post_posts_world req env ps us usr t c :
  authenticated_as us req = Some usr →
  body req !! "title" = Some (JStr t) →
  t ≠ EmptyString →
  body req !! "content" = Some (JStr c) →
  ps !! newId env = None →
  let post := {| BlogPost._id := newId env;
                 BlogPost.author :=
                   {| BlogPost.firstName := User.firstName usr;
                      BlogPost.lastName := User.lastName usr |};
                 BlogPost.title := Some t;
                 BlogPost.content := Some c;
                 BlogPost.created := now env |} in
  ∃ tr, serve POST_posts req env ps us =
        {| res := Some {| status := 201;
                          payload := BPost (BlogPost.apiRepr post) |};
           posts := <[newId env := post]> ps;
           users := us;
           trace := tr |}.
Proof.
  intros Hauth Ht Hne Hc Hfresh. cbv zeta.
  unfold_route.
  rewrite (auth_gate_pass us ps req (λ user, post_posts user req env)
              usr Hauth).
  unfold post_posts, BlogPost_create, requiredPostFields. cbn [forEach].
  rewrite Ht, Hc. run.
  apply String.eqb_neq in Hne. rewrite Hne. run. rewrite Hfresh. run.
  eauto.
Qed.

(** C4, as the code has it. An authenticated POST /posts whose body has a
    title that is a non-empty string and a content that is a string, with
    a fresh, well-formed id drawn for the new document: the post is stored
    with the author names of the authenticated user (whatever the body
    says about an author), the answer is 201, its author is the user's
    firstName, a space and lastName, trimmed, and the post is then served
    by GET /posts and by GET /posts/:id with the title and content of the
    request. *)
Theorem post_posts_creates req env ps us usr t c :
  authenticated_as us req = Some usr →
  body req !! "title" = Some (JStr t) →
  t ≠ EmptyString →
  body req !! "content" = Some (JStr c) →
  ps !! newId env = None →
  isObjectId (newId env) = true →
  let w := serve POST_posts req env ps us in
  let post := {| BlogPost._id := newId env;
                 BlogPost.author :=
                   {| BlogPost.firstName := User.firstName usr;
                      BlogPost.lastName := User.lastName usr |};
                 BlogPost.title := Some t;
                 BlogPost.content := Some c;
                 BlogPost.created := now env |} in
  let repr := {| BlogPost.r_id := newId env;
                 BlogPost.r_author :=
                   trim (User.firstName usr ++ " " ++ User.lastName usr);
                 BlogPost.r_content := Some c;
                 BlogPost.r_title := Some t;
                 BlogPost.r_created := now env |} in
  posts w = <[newId env := post]> ps ∧
  users w = us ∧
  res w = Some {| status := 201; payload := BPost repr |} ∧
  (∀ req' env', ∃ rs,
      res (serve GET_posts req' env' (posts w) (users w)) =
        Some {| status := 200; payload := BPosts rs |} ∧
      repr ∈ rs) ∧
  (∀ req' env', params_id req' = newId env →
      res (serve GET_posts_id req' env' (posts w) (users w)) =
        Some {| status := 200; payload := BPost repr |}).
Proof.
  intros Hauth Ht Hne Hc Hfresh Hoid. cbv zeta.
  destruct (post_posts_world req env ps us usr t c Hauth Ht Hne Hc Hfresh)
    as [tr ->].
  cbn [posts users res]. split_and!; try done.
  - intros req' env'.
    unfold_route; unfold get_posts, BlogPost_find.
    run. eexists. split; [done|].
    apply list_elem_of_fmap. eexists. split; [|apply list_elem_of_fmap].
    2: { eexists (_, _). split; [done|].
         apply elem_of_map_to_list. apply lookup_insert_eq. }
    done.
  - intros req' env' Hreq.
    unfold_route; unfold get_posts_id,
      BlogPost_findById.
    run. rewrite Hreq, Hoid. run. rewrite lookup_insert_eq. by run.
Qed.

Lemma auth_gate_trace_no_create req usr :
  existsb is_post_create (auth_gate_trace req usr) = false.
Proof. unfold auth_gate_trace. by destruct (authorization req) as [[? ?]|]. Qed.

(** C8, as the code has it. An authenticated POST /posts whose body lacks
    exactly one of title and content: the answer is the 400 that names the
    missing field, and the route goes on, so that the next thing it does
    is to ask the store to create the post. *)
Theorem post_posts_one_field_missing req env ps us usr f g :
  authenticated_as us req = Some usr →
  (f = "title" ∧ g = "content") ∨ (f = "content" ∧ g = "title") →
  body req !! f = None →
  is_Some (body req !! g) →
  let w := serve POST_posts req env ps us in
  let r400 := {| status := 400;
                 payload := BError ("Missing " ++ dquote ++ f ++ dquote ++
                                    " in request body") |} in
  let attempt :=
    EvStore (PostCreate (body req !! "title") (body req !! "content")
               {| BlogPost.firstName := User.firstName usr;
                  BlogPost.lastName := User.lastName usr |}) in
  res w = Some r400 ∧
  ∃ before after,
    trace w = (before ++ EvSend r400 :: attempt :: after)%list.
Proof.
  intros Hauth Hfg Hf [v Hg]. cbv zeta.
  unfold_route.
  rewrite (auth_gate_pass us ps req (λ user, post_posts user req env)
              usr Hauth).
  unfold post_posts, BlogPost_create, requiredPostFields. cbn [forEach].
  destruct Hfg as [[-> ->] | [-> ->]]; rewrite Hf, Hg; run.
  - split; [done|]. exists (auth_gate_trace req usr). eexists.
    rewrite <- !app_assoc. by cbn.
  - unfold requiredString, castField, castString.
    destruct v as [|[]|n|s|d|]; run;
      repeat (match goal with
              | |- context [String.eqb ?x EmptyString] =>
                  destruct (String.eqb x EmptyString)
              end; run);
      try destruct (ps !! newId env); run.
    all: split; [done|]; exists (auth_gate_trace req usr); eexists;
      rewrite <- !app_assoc; by cbn.
Qed.

(** X20. When both fields are missing the second 400 is refused by the response
    object, the exception leaves the route, and the store is never asked
    to create anything. *)
Lemma post_posts_both_missing req env ps us usr :
  authenticated_as us req = Some usr →
  body req !! "title" = None →
  body req !! "content" = None →
  let w := serve POST_posts req env ps us in
  res w = Some {| status := 400;
                  payload := BError ("Missing " ++ dquote ++ "title" ++
                                     dquote ++ " in request body") |} ∧
  posts w = ps ∧
  existsb is_post_create (trace w) = false.
Proof.
  intros Hauth Ht Hc. cbv zeta.
  unfold_route.
  rewrite (auth_gate_pass us ps req (λ user, post_posts user req env)
              usr Hauth).
  unfold post_posts, requiredPostFields. cbn [forEach].
  rewrite Ht, Hc. run. split_and!; try done.
  rewrite !existsb_app, auth_gate_trace_no_create. done.
Qed.

(** X21. With a title and no content the post is stored all the same, though
    the answer is the 400. *)
Lemma post_posts_without_content_stores req env ps us usr t :
  authenticated_as us req = Some usr →
  body req !! "title" = Some (JStr t) →
  t ≠ EmptyString →
  body req !! "content" = None →
  ps !! newId env = None →
  let w := serve POST_posts req env ps us in
  (∃ r, res w = Some r ∧ status r = 400%nat) ∧
  ∃ p, posts w = <[newId env := p]> ps ∧
       BlogPost.title p = Some t ∧ BlogPost.content p = None.
Proof.
  intros Hauth Ht Hne Hc Hfresh. cbv zeta.
  unfold_route.
  rewrite (auth_gate_pass us ps req (λ user, post_posts user req env)
              usr Hauth).
  unfold post_posts, BlogPost_create, requiredPostFields. cbn [forEach].
  rewrite Ht, Hc. run.
  apply String.eqb_neq in Hne. rewrite Hne. run. rewrite Hfresh. run.
  split; [eauto|]. eexists. by split_and!.
Qed.

(** ** The second call of the verify callback *)

(** X2. For an unknown user the strategy calls its callback twice: the first
    stage returns the callback's result, which the second stage reads as
    an invalid password. *)
Lemma strategy_unknown_user_calls_twice us username password :
  findByUsername us username = None →
  trace (strategy bcrypt_compare username password
           (λ user info, log (EvVerified user info)) (arrive ∅ us)).2 =
  [EvStore (UserFindOne username);
   EvVerified None (Some IncorrectUsername);
   EvVerified None (Some IncorrectPassword)].
Proof.
  intros Hnone. unfold strategy, User_findOne. run. rewrite Hnone. by run.
Qed.

End Properties.

(** * The theorems at work on the concrete deployment *)

Section Instances.

Import Scenario.


(** C3 on a POST /posts by an unknown user and a DELETE with a wrong
    password. *)
Lemma auth_failures_indistinguishable_witness :
  let req1 := request EmptyString new_post_body unknown_user in
  let req2 := request post1_id ∅ wrong_password in
  authenticate toy_compare [testboy] "nobody" "AliensExist" =
    Some (inl IncorrectUsername) ∧
  authenticate toy_compare [testboy] "testboy" "AliensExista" =
    Some (inl IncorrectPassword) ∧
  res (run_request POST_posts req1 env2 store1 [testboy]) =
    res (run_request DELETE_posts_id req2 env2 store1 [testboy]) ∧
  res (run_request POST_posts req1 env2 store1 [testboy]) =
    Some {| status := 401; payload := BText "Unauthorized" |}.
Proof.
  cbv zeta. split; [vm_compute; reflexivity|].
  split; [vm_compute; reflexivity|].
  apply (auth_failures_indistinguishable toy_compare toy_hash hex24 drop_paths
           POST_posts DELETE_posts_id _ _ env2 env2 store1 store1 [testboy]
           "nobody" "AliensExist" "testboy" "AliensExista").
  all: vm_compute; reflexivity.
Defined.

(** C7, amended, on a registration without a password. *)
Lemma post_users_missing_field_witness :
  let req := request EmptyString (delete "password" new_user_body) None in
  "password" ∈ requiredUserFields ∧
  truthy (body req !! "password") = false ∧
  let w := run_request POST_users req env2 store1 [testboy] in
  ∃ i g,
    requiredUserFields !! i = Some g ∧
    truthy (body req !! g) = false ∧
    (∀ j h, (j < i)%nat → requiredUserFields !! j = Some h →
            truthy (body req !! h) = true) ∧
    res w = Some {| status := 400;
                    payload := BMessage ("Missing field: " ++ g) |} ∧
    users w = [testboy] ∧ posts w = store1 ∧
    ((∀ h v, h ∈ requiredUserFields → body req !! h = Some v →
             ∃ s, v = JStr s) →
     (body req !! g = None ∨ body req !! g = Some (JStr EmptyString)) ∧
     (∀ j h, (j < i)%nat → requiredUserFields !! j = Some h →
             ∃ s, body req !! h = Some (JStr s) ∧ s ≠ EmptyString)).
Proof.
  cbv zeta.
  assert ("password" ∈ requiredUserFields) as Hin.
  { apply list_elem_of_further, list_elem_of_here. }
  assert (truthy
            (body (request EmptyString (delete "password" new_user_body) None)
               !! "password") = false) as Hmiss.
  { vm_compute; reflexivity. }
  split; [exact Hin|]. split; [exact Hmiss|].
  exact (post_users_missing_field toy_compare toy_hash hex24 drop_paths
           _ env2 store1 [testboy] "password" Hin Hmiss).
Defined.

(** C6 on a registration under the name of the seeded user. *)
Lemma post_users_duplicate_witness :
  let req := request EmptyString new_user_body None in
  body req !! "username" = Some (JStr " testboy ") ∧
  (0 < countByUsername [testboy] (trim " testboy "))%nat ∧
  let w := run_request POST_users req env2 store1 [testboy] in
  users w = [testboy] ∧ posts w = store1 ∧
  (∀ r, res w = Some r → status r ≠ 201%nat) ∧
  ((∀ f, f ∈ requiredUserFields → truthy (body req !! f) = true) →
   (∃ password, body req !! "password" = Some (JStr password)) →
   res w = Some {| status := 422;
                   payload := BMessage "username already taken" |}).
Proof.
  cbv zeta.
  assert (body (request EmptyString new_user_body None) !! "username" =
          Some (JStr " testboy ")) as Hu by (vm_compute; reflexivity).
  assert (0 < countByUsername [testboy] (trim " testboy "))%nat as Hcount
    by (vm_compute; lia).
  split; [exact Hu|]. split; [exact Hcount|].
  exact (post_users_duplicate toy_compare toy_hash hex24 drop_paths
           _ env2 store1 [testboy] " testboy " Hu Hcount).
Defined.

(** C9 on an id that is not in the store. *)
Lemma get_post_absent_is_500_witness :
  let req := request post2_id ∅ None in
  store1 !! params_id req = None ∧
  let w := run_request GET_posts_id req env2 store1 [testboy] in
  res w = Some {| status := 500;
                  payload := BError "something went horribly awry" |} ∧
  posts w = store1 ∧ users w = [testboy].
Proof.
  cbv zeta.
  assert (store1 !! params_id (request post2_id ∅ None) = None) as Habs
    by (vm_compute; reflexivity).
  split; [exact Habs|].
  exact (get_post_absent_is_500 toy_compare toy_hash hex24 drop_paths
           _ env2 store1 [testboy] Habs).
Defined.

(** C10 on an id that is not in the store. *)
Lemma put_post_absent_is_500_witness :
  let req := request post2_id
               {[ "id" := JStr post2_id; "title" := JStr "New" ]}
               good_auth in
  authenticated_as toy_compare [testboy] req = Some testboy ∧
  params_id req ≠ EmptyString ∧
  body req !! "id" = Some (JStr (params_id req)) ∧
  store1 !! params_id req = None ∧
  let w := run_request PUT_posts_id req env2 store1 [testboy] in
  let r500 := {| status := 500; payload := BMessage "Something went wrong" |} in
  res w = Some r500 ∧
  posts w = store1 ∧ users w = [testboy] ∧
  trace w =
    [EvStore (UserFindOne "testboy"); EvVerified (Some testboy) None;
     EvStore (PostFindByIdAndUpdate post2_id {[ "title" := JStr "New" ]});
     EvSend r500].
Proof.
  cbv zeta.
  set (req := request post2_id
                {[ "id" := JStr post2_id; "title" := JStr "New" ]} good_auth).
  assert (authenticated_as toy_compare [testboy] req = Some testboy) as Hauth
    by (vm_compute; reflexivity).
  assert (params_id req ≠ EmptyString) as Hne by discriminate.
  assert (body req !! "id" = Some (JStr (params_id req))) as Hid
    by (vm_compute; reflexivity).
  assert (store1 !! params_id req = None) as Habs
    by (vm_compute; reflexivity).
  do 4 (split; [assumption|]).
  exact (put_post_absent_is_500 toy_compare toy_hash hex24 drop_paths
           req env2 store1 [testboy] testboy Hauth Hne Hid Habs).
Defined.

(** C5 on an update of the title alone: the title changes, the rest
    stays, and the answer is the 201. *)
Lemma put_post_frame_witness :
  let req := request post1_id
               {[ "id" := JStr post1_id; "title" := JStr "New title" ]}
               good_auth in
  params_id req ≠ EmptyString ∧
  body req !! "id" = Some (JStr (params_id req)) ∧
  store1 !! params_id req = Some post1 ∧
  let w := run_request PUT_posts_id req env2 store1 [testboy] in
  ∃ p',
    posts w !! params_id req = Some p' ∧
    BlogPost._id p' = BlogPost._id post1 ∧
    BlogPost.author p' = BlogPost.author post1 ∧
    BlogPost.created p' = BlogPost.created post1 ∧
    BlogPost.content p' = BlogPost.content post1 ∧
    (∀ id, id ≠ params_id req → posts w !! id = store1 !! id) ∧
    users w = [testboy] ∧
    res w = Some {| status := 201; payload := BPost (BlogPost.apiRepr p') |} ∧
    BlogPost.title p' = Some "New title".
Proof.
  cbv zeta.
  set (req := request post1_id
                {[ "id" := JStr post1_id; "title" := JStr "New title" ]}
                good_auth).
  assert (params_id req ≠ EmptyString) as Hne by discriminate.
  assert (body req !! "id" = Some (JStr (params_id req))) as Hid
    by (vm_compute; reflexivity).
  assert (store1 !! params_id req = Some post1) as Hp
    by (vm_compute; reflexivity).
  assert (body req !! "title" = Some (JStr "New title")) as Ht
    by (vm_compute; reflexivity).
  assert (body req !! "content" = None) as Hc by (vm_compute; reflexivity).
  do 3 (split; [assumption|]).
  destruct (put_post_frame toy_compare toy_hash hex24 drop_paths
              req env2 store1 [testboy] post1 Hne Hid Hp)
    as (p' & Hl & Hi & Ha & Hcr & _ & Hco & Hother & Hus & Hpos).
  destruct Hpos as (Hres & Htitle & _).
  { exists testboy. vm_compute; reflexivity. }
  { vm_compute; reflexivity. }
  { intros v Hv. rewrite Ht in Hv. injection Hv as <-. by eexists. }
  { intros v Hv. rewrite Hc in Hv. discriminate Hv. }
  exists p'. split_and!; try assumption.
  - by apply Hco.
  - specialize (Htitle _ Ht). cbn in Htitle. by injection Htitle as <-.
Defined.

(** C4, amended, on the post the tests create. *)
Lemma post_posts_creates_witness :
  let req := request EmptyString new_post_body good_auth in
  authenticated_as toy_compare [testboy] req = Some testboy ∧
  body req !! "title" = Some (JStr "T") ∧
  "T" ≠ EmptyString ∧
  body req !! "content" = Some (JStr "C") ∧
  store1 !! newId env2 = None ∧
  hex24 (newId env2) = true ∧
  let w := run_request POST_posts req env2 store1 [testboy] in
  let repr := {| BlogPost.r_id := post2_id;
                 BlogPost.r_author := "Kyle S";
                 BlogPost.r_content := Some "C";
                 BlogPost.r_title := Some "T";
                 BlogPost.r_created := now env2 |} in
  res w = Some {| status := 201; payload := BPost repr |} ∧
  (∀ req' env', ∃ rs,
      res (run_request GET_posts req' env' (posts w) (users w)) =
        Some {| status := 200; payload := BPosts rs |} ∧
      repr ∈ rs) ∧
  (∀ req' env', params_id req' = post2_id →
      res (run_request GET_posts_id req' env' (posts w) (users w)) =
        Some {| status := 200; payload := BPost repr |}).
Proof.
  cbv zeta.
  set (req := request EmptyString new_post_body good_auth).
  assert (authenticated_as toy_compare [testboy] req = Some testboy) as Hauth
    by (vm_compute; reflexivity).
  assert (body req !! "title" = Some (JStr "T")) as Ht
    by (vm_compute; reflexivity).
  assert ("T" ≠ EmptyString) as Hne by discriminate.
  assert (body req !! "content" = Some (JStr "C")) as Hc
    by (vm_compute; reflexivity).
  assert (store1 !! newId env2 = None) as Hfresh
    by (vm_compute; reflexivity).
  assert (hex24 (newId env2) = true) as Hoid by (vm_compute; reflexivity).
  do 6 (split; [assumption|]).
  destruct (post_posts_creates toy_compare toy_hash hex24 drop_paths
              req env2 store1 [testboy] testboy "T" "C"
              Hauth Ht Hne Hc Hfresh Hoid) as (_ & _ & Hres & Hlist & Hone).
  split; [exact Hres|]. split; [exact Hlist|exact Hone].
Defined.

(** C8, amended, on a body without content. *)
Lemma post_posts_one_field_missing_witness :
  let req := request EmptyString {[ "title" := JStr "T" ]} good_auth in
  authenticated_as toy_compare [testboy] req = Some testboy ∧
  body req !! "content" = None ∧
  is_Some (body req !! "title") ∧
  let w := run_request POST_posts req env2 store1 [testboy] in
  let r400 := {| status := 400;
                 payload := BError ("Missing " ++ dquote ++ "content" ++
                                    dquote ++ " in request body") |} in
  let attempt :=
    EvStore (PostCreate (body req !! "title") (body req !! "content")
               {| BlogPost.firstName := "Kyle";
                  BlogPost.lastName := "S" |}) in
  res w = Some r400 ∧
  ∃ before after,
    trace w = (before ++ EvSend r400 :: attempt :: after)%list.
Proof.
  cbv zeta.
  set (req := request EmptyString {[ "title" := JStr "T" ]} good_auth).
  assert (authenticated_as toy_compare [testboy] req = Some testboy) as Hauth
    by (vm_compute; reflexivity).
  assert (body req !! "content" = None) as Hf by (vm_compute; reflexivity).
  assert (is_Some (body req !! "title")) as Hg
    by (exists (JStr "T"); vm_compute; reflexivity).
  do 3 (split; [assumption|]).
  exact (post_posts_one_field_missing toy_compare toy_hash hex24 drop_paths
           req env2 store1 [testboy] testboy "content" "title"
           Hauth (or_intror (conj eq_refl eq_refl)) Hf Hg).
Defined.

(** ** Where the claims as first stated fail *)


(** C7 as stated fails: with a first name that is the number 0 and a last
    name that is the empty string, the first missing or empty field is
    lastName, and the message names firstName. *)
Lemma post_users_missing_field_counterexample :
  let b : gmap string JsVal :=
    {[ "username" := JStr "x"; "password" := JStr "p";
       "firstName" := JNum 0; "lastName" := JStr EmptyString ]} in
  let req := request EmptyString b None in
  let w := run_request POST_users req env2 store1 [testboy] in
  body req !! "username" = Some (JStr "x") ∧
  body req !! "password" = Some (JStr "p") ∧
  body req !! "firstName" = Some (JNum 0) ∧
  body req !! "lastName" = Some (JStr EmptyString) ∧
  res w = Some {| status := 400;
                  payload := BMessage "Missing field: firstName" |}.
Proof. cbv zeta. split_and!; vm_compute; reflexivity. Qed.

(** C4 as stated fails: an authenticated POST /posts without a title is
    answered 400 and stores nothing; and for a user whose first name
    starts with a space, the author of the 201 is the trimmed name, not
    the first and last name joined by a space. *)
Lemma post_posts_creates_counterexample :
  (let req := request EmptyString {[ "content" := JStr "C" ]} good_auth in
   let w := run_request POST_posts req env2 store1 [testboy] in
   authenticated_as toy_compare [testboy] req = Some testboy ∧
   res w = Some {| status := 400;
                   payload := BError ("Missing " ++ dquote ++ "title" ++
                                      dquote ++ " in request body") |} ∧
   posts w = store1) ∧
  (let req := request EmptyString new_post_body (Some ("spaced", "pw")) in
   let w := run_request POST_posts req env2 store1 [testboy; spaced] in
   authenticated_as toy_compare [testboy; spaced] req = Some spaced ∧
   ∃ r, res w = Some {| status := 201; payload := BPost r |} ∧
        BlogPost.r_author r = "Kyle S" ∧
        BlogPost.r_author r ≠
          User.firstName spaced ++ " " ++ User.lastName spaced).
Proof.
  cbv zeta. split.
  - split_and!; vm_compute; reflexivity.
  - split; [vm_compute; reflexivity|].
    eexists. split_and!; [vm_compute; reflexivity|reflexivity|].
    vm_compute. discriminate.
Qed.

(** C6 as stated fails: a registration under an existing name is answered
    400 when the password is missing, and 500 when the password is a
    number. *)
Lemma post_users_duplicate_counterexample :
  (0 < countByUsername [testboy] (trim " testboy "))%nat ∧
  (let req := request EmptyString (delete "password" new_user_body) None in
   let w := run_request POST_users req env2 store1 [testboy] in
   body req !! "username" = Some (JStr " testboy ") ∧
   res w = Some {| status := 400;
                   payload := BMessage "Missing field: password" |}) ∧
  (let req := request EmptyString
                (<["password" := JNum 5]> new_user_body) None in
   let w := run_request POST_users req env2 store1 [testboy] in
   body req !! "username" = Some (JStr " testboy ") ∧
   res w = Some {| status := 500;
                   payload := BText "Internal Server Error" |}).
Proof.
  cbv zeta. split; [vm_compute; lia|].
  split; split; vm_compute; reflexivity.
Qed.

(** C8 as stated fails: with neither title nor content in the body, the
    400 for the title goes out, the 400 for the content is refused, and
    the store is never asked to create a post. *)
Lemma post_posts_one_field_missing_counterexample :
  let req := request EmptyString ∅ good_auth in
  let w := run_request POST_posts req env2 store1 [testboy] in
  authenticated_as toy_compare [testboy] req = Some testboy ∧
  body req !! "title" = None ∧
  body req !! "content" = None ∧
  res w = Some {| status := 400;
                  payload := BError ("Missing " ++ dquote ++ "title" ++
                                     dquote ++ " in request body") |} ∧
  existsb is_post_create (trace w) = false ∧
  posts w = store1.
Proof. cbv zeta. split_and!; vm_compute; reflexivity. Qed.

End Instances.

(** * Further properties of the models and the routes *)

Section Further.

Variable bcrypt_compare : string → string → bool.
Variable bcrypt_hash : string → string.
Variable isObjectId : string → bool.
Variable setOtherPaths : gmap string JsVal → BlogPost.t → Error + BlogPost.t.

Local Abbreviation serve :=
  (serve bcrypt_compare bcrypt_hash isObjectId setOtherPaths).
Local Abbreviation app :=
  (app bcrypt_compare bcrypt_hash isObjectId setOtherPaths).
Local Abbreviation authenticate := (authenticate bcrypt_compare).
Local Abbreviation authenticated_as := (authenticated_as bcrypt_compare).
Local Abbreviation passport_authenticate :=
  (passport_authenticate bcrypt_compare).

(** ** Who is let through *)

Lemma findByUsername_Some us name u :
  findByUsername us name = Some u → u ∈ us ∧ User.username u = name.
Proof.
  unfold findByUsername. intros Hfind.
  destruct (find_some _ _ Hfind) as [Hin Heq].
  split; [by apply list_elem_of_In|by apply String.eqb_eq].
Qed.



(** X1. A request is let through as [usr] exactly when its header is a
    Basic one, the first piece of its credentials split at the colons is
    a non-empty user name, the second piece a non-empty password, [usr]
    is the stored user found under that name, and bcrypt's compare
    accepts that password against the digest of [usr]; whatever follows a
    second colon is not looked at. The route then runs as [usr], on the
    store as it was. *)
Theorem authenticated_as_iff us req usr :
  (authenticated_as us req = Some usr ↔
   ∃ credentials userid password rest,
     header req = Basic credentials ∧
     split_colon credentials = userid :: password :: rest ∧
     userid ≠ EmptyString ∧ password ≠ EmptyString ∧
     findByUsername us userid = Some usr ∧
     usr ∈ us ∧ User.username usr = userid ∧
     bcrypt_compare password (User.password usr) = true) ∧
  (authenticated_as us req = Some usr →
   ∀ next ps,
     ∃ tr, passport_authenticate req next (arrive ps us) =
           next usr {| res := None; posts := ps; users := us;
                       trace := tr |}).
Proof.
  split.
  - unfold_authenticated_as. unfold authorization. split.
    + destruct (header req) as [| | |credentials]; try done.
      destruct (split_colon credentials) as [|userid [|password rest]] eqn:Hs;
        try done.
      destruct (String.eqb userid EmptyString) eqn:Hu; [done|].
      destruct (String.eqb password EmptyString) eqn:Hp; [done|]. cbn.
      rewrite authenticate_unfold.
      destruct (findByUsername us userid) as [u|] eqn:Hfind; [|done].
      destruct (bcrypt_compare password (User.password u)) eqn:Hc; [|done].
      intros [= ->]. exists credentials, userid, password, rest.
      destruct (findByUsername_Some us userid usr Hfind) as [Hin Hname].
      apply String.eqb_neq in Hu, Hp. by split_and!.
    + intros (credentials & userid & password & rest & -> & -> & Hu & Hp &
              Hfind & _ & _ & Hc).
      apply String.eqb_neq in Hu, Hp. rewrite Hu, Hp. cbn.
      by rewrite authenticate_unfold, Hfind, Hc.
  - intros Hauth next ps. eexists. by apply auth_gate_pass.
Qed.

(** ** Reading posts *)

(** X3. GET /posts answers 200 with the serialization of every stored post
    and of nothing else, one entry per post, and changes nothing. *)
Theorem get_posts_lists_all req env ps us :
  let w := serve GET_posts req env ps us in
  ∃ rs,
    res w = Some {| status := 200; payload := BPosts rs |} ∧
    (∀ r, r ∈ rs ↔ ∃ id p, ps !! id = Some p ∧ r = BlogPost.apiRepr p) ∧
    List.length rs = size ps ∧
    posts w = ps ∧ users w = us.
Proof.
  cbv zeta. unfold_route; unfold get_posts, BlogPost_find. run.
  eexists. split; [done|]. split_and!; try done.
  - intros r. rewrite list_elem_of_fmap. split.
    + intros (p & -> & Hp). apply list_elem_of_fmap in Hp as ([id p'] & -> & Hin).
      apply elem_of_map_to_list in Hin. by exists id, p'.
    + intros (id & p & Hp & ->). exists p. split; [done|].
      apply list_elem_of_fmap. exists (id, p). split; [done|].
      by apply elem_of_map_to_list.
  - by rewrite !length_fmap, length_map_to_list.
Qed.

(** X4. GET /posts/:id for a well-formed id of a stored post answers 200 with
    the serialization of that post, and changes nothing. *)
Theorem get_post_present req env ps us p :
  isObjectId (params_id req) = true →
  ps !! params_id req = Some p →
  let w := serve GET_posts_id req env ps us in
  res w = Some {| status := 200; payload := BPost (BlogPost.apiRepr p) |} ∧
  posts w = ps ∧ users w = us.
Proof.
  intros Hoid Hp. cbv zeta.
  unfold_route; unfold get_posts_id, BlogPost_findById. run.
  rewrite Hoid. run. rewrite Hp. by run.
Qed.

(** ** Deleting posts *)

(** The world an authenticated DELETE leaves behind. *)
Lemma delete_world req env ps us usr :
  authenticated_as us req = Some usr →
  ∃ tr, serve DELETE_posts_id req env ps us =
        if isObjectId (params_id req)
        then {| res := Some {| status := 204; payload := BEmpty |};
                posts := delete (params_id req) ps;
                users := us; trace := tr |}
        else {| res := Some {| status := 500;
                               payload :=
                                 BError "something went terribly wrong" |};
                posts := ps; users := us; trace := tr |}.
Proof.
  intros Hauth. unfold_route.
  rewrite (auth_gate_pass bcrypt_compare us ps req
             (λ user, delete_posts_id isObjectId user req) usr Hauth).
  unfold delete_posts_id, BlogPost_findByIdAndRemove. run.
  destruct (isObjectId (params_id req)); run; eauto.
Qed.

(** X5. An authenticated DELETE /posts/:id with a well-formed id answers 204
    with no body whether or not a post has the id; afterwards no post has
    the id and every other post, and every user, is as before. With an
    ill-formed id the answer is 500 and nothing changes. *)
Theorem delete_post_removes req env ps us usr :
  authenticated_as us req = Some usr →
  let w := serve DELETE_posts_id req env ps us in
  users w = us ∧
  (isObjectId (params_id req) = true →
   res w = Some {| status := 204; payload := BEmpty |} ∧
   posts w !! params_id req = None ∧
   ∀ id, id ≠ params_id req → posts w !! id = ps !! id) ∧
  (isObjectId (params_id req) = false →
   res w = Some {| status := 500;
                   payload := BError "something went terribly wrong" |} ∧
   posts w = ps).
Proof.
  intros Hauth. cbv zeta.
  destruct (delete_world req env ps us usr Hauth) as [tr ->].
  destruct (isObjectId (params_id req)); cbn; split_and!; try done.
  intros _. split_and!; [done|apply lookup_delete_eq|].
  intros id Hne. by apply lookup_delete_ne.
Qed.

(** X6. After an authenticated DELETE /posts/:id, GET /posts/:id for the same
    id is answered 500: the post is not served any more. *)
Theorem delete_then_get_fails req env ps us usr req' env' :
  authenticated_as us req = Some usr →
  params_id req' = params_id req →
  let w := serve DELETE_posts_id req env ps us in
  res (serve GET_posts_id req' env' (posts w) (users w)) =
    Some {| status := 500;
            payload := BError "something went horribly awry" |}.
Proof.
  intros Hauth Hid. cbv zeta.
  destruct (delete_world req env ps us usr Hauth) as [tr ->].
  unfold_route; unfold get_posts_id, BlogPost_findById. run. rewrite Hid.
  destruct (isObjectId (params_id req)); run; [|done].
  rewrite lookup_delete_eq. by run.
Qed.

(** X7. Deleting twice is deleting once: the second authenticated DELETE of
    the same well-formed id answers 204 again and leaves the store as the
    first one left it. *)
Theorem delete_twice req env ps us usr env' :
  authenticated_as us req = Some usr →
  isObjectId (params_id req) = true →
  let w1 := serve DELETE_posts_id req env ps us in
  let w2 := serve DELETE_posts_id req env' (posts w1) (users w1) in
  res w2 = Some {| status := 204; payload := BEmpty |} ∧
  posts w2 = posts w1 ∧ users w2 = users w1.
Proof.
  intros Hauth Hoid. cbv zeta.
  destruct (delete_world req env ps us usr Hauth) as [tr ->].
  rewrite Hoid. cbn [posts users].
  destruct (delete_world req env' (delete (params_id req) ps) us usr Hauth)
    as [tr' ->].
  rewrite Hoid. cbn. split_and!; try done.
  apply delete_id, lookup_delete_eq.
Qed.

(** ** Updating posts *)

#[local] Arguments setPath : simpl never.
#[local] Arguments collect_updated : simpl never.
#[local] Arguments applyOtherPaths : simpl never.

Lemma setPath_precast updated path old t :
  setPath updated path old = inr t →
  ∃ t', setPath updated path None = inr t'.
Proof. unfold setPath. destruct (updated !! path); eauto. Qed.

(** The world an authenticated PUT leaves behind when the post exists,
    the id is well formed and the values given cast: the update is made
    whether or not the ids match; only the answer differs. *)
Lemma put_world req env ps us usr p t c :
  authenticated_as us req = Some usr →
  isObjectId (params_id req) = true →
  ps !! params_id req = Some p →
  setPath (collect_updated (body req)) "title" (BlogPost.title p) = inr t →
  setPath (collect_updated (body req)) "content" (BlogPost.content p) =
    inr c →
  let p' := {| BlogPost._id := BlogPost._id p;
               BlogPost.author := BlogPost.author p;
               BlogPost.title := t;
               BlogPost.content := c;
               BlogPost.created := BlogPost.created p |} in
  ∃ tr, serve PUT_posts_id req env ps us =
        {| res := Some
                    (if negb (String.eqb (params_id req) EmptyString)
                        && truthy (body req !! "id")
                        && strict_eq_str (params_id req) (body req !! "id")
                     then {| status := 201;
                             payload := BPost (BlogPost.apiRepr p') |}
                     else {| status := 400;
                             payload := BError
                               "Request path id and request body id values must match" |});
           posts := <[params_id req := p']> ps;
           users := us;
           trace := tr |}.
Proof.
  intros Hauth Hoid Hp Ht Hc. cbv zeta.
  destruct (setPath_precast _ _ _ _ Ht) as [t0 Ht0].
  destruct (setPath_precast _ _ _ _ Hc) as [c0 Hc0].
  unfold_route.
  rewrite (auth_gate_pass bcrypt_compare us ps req
             (λ user, put_posts_id isObjectId setOtherPaths user req) usr Hauth).
  unfold put_posts_id, BlogPost_findByIdAndUpdate.
  destruct (negb (String.eqb (params_id req) EmptyString)
            && truthy (body req !! "id")
            && strict_eq_str (params_id req) (body req !! "id")); run.
  all: rewrite Hoid; run; rewrite Ht0, Hc0; run.
  all: rewrite Hp; run.
  all: rewrite Ht, Hc; run; rewrite applyOtherPaths_collect; run; eauto.
Qed.

(** X8. An authenticated PUT /posts/:id whose body id is not the path id is
    answered 400, and the update is made all the same: the stored post
    takes the title and content given in the body. *)
Theorem put_mismatch_still_updates req env ps us usr p t c :
  authenticated_as us req = Some usr →
  body req !! "id" ≠ Some (JStr (params_id req)) →
  isObjectId (params_id req) = true →
  ps !! params_id req = Some p →
  setPath (collect_updated (body req)) "title" (BlogPost.title p) = inr t →
  setPath (collect_updated (body req)) "content" (BlogPost.content p) =
    inr c →
  let w := serve PUT_posts_id req env ps us in
  res w = Some {| status := 400;
                  payload := BError
                    "Request path id and request body id values must match" |} ∧
  ∃ p', posts w !! params_id req = Some p' ∧
        BlogPost.title p' = t ∧ BlogPost.content p' = c ∧
        BlogPost.author p' = BlogPost.author p ∧
        BlogPost.created p' = BlogPost.created p.
Proof.
  intros Hauth Hne Hoid Hp Ht Hc. cbv zeta.
  destruct (put_world req env ps us usr p t c Hauth Hoid Hp Ht Hc) as [tr ->].
  assert (strict_eq_str (params_id req) (body req !! "id") = false) as ->.
  { destruct (body req !! "id") as [[| | |s| |]|] eqn:Hb; try done. cbn.
    apply String.eqb_neq. intros <-. done. }
  rewrite andb_false_r. cbn. split; [done|].
  eexists. split; [apply lookup_insert_eq|done].
Qed.

(** X9. After an authenticated PUT /posts/:id with matching ids that goes
    through, GET /posts/:id serves what the PUT answered. *)
Theorem put_then_get req env ps us usr p t c req' env' :
  authenticated_as us req = Some usr →
  params_id req ≠ EmptyString →
  body req !! "id" = Some (JStr (params_id req)) →
  isObjectId (params_id req) = true →
  ps !! params_id req = Some p →
  setPath (collect_updated (body req)) "title" (BlogPost.title p) = inr t →
  setPath (collect_updated (body req)) "content" (BlogPost.content p) =
    inr c →
  params_id req' = params_id req →
  let w := serve PUT_posts_id req env ps us in
  ∃ r, res w = Some {| status := 201; payload := BPost r |} ∧
       BlogPost.r_title r = t ∧ BlogPost.r_content r = c ∧
       res (serve GET_posts_id req' env' (posts w) (users w)) =
         Some {| status := 200; payload := BPost r |}.
Proof.
  intros Hauth Hne Hid Hoid Hp Ht Hc Hid'. cbv zeta.
  destruct (put_world req env ps us usr p t c Hauth Hoid Hp Ht Hc) as [tr ->].
  pose proof (ids_match req Hne Hid) as Hok.
  apply negb_false_iff in Hok. rewrite Hok. cbn [res posts users].
  eexists. split; [done|]. split_and!; try done.
  unfold_route; unfold get_posts_id, BlogPost_findById. run.
  rewrite Hid', Hoid. run. rewrite lookup_insert_eq. by run.
Qed.

(** X10. An authenticated PUT /posts/:id with matching ids whose body has
    neither title nor content answers 201 with the post as it is stored
    and changes nothing. *)
Theorem put_without_fields_changes_nothing req env ps us usr p :
  authenticated_as us req = Some usr →
  params_id req ≠ EmptyString →
  body req !! "id" = Some (JStr (params_id req)) →
  isObjectId (params_id req) = true →
  ps !! params_id req = Some p →
  body req !! "title" = None →
  body req !! "content" = None →
  let w := serve PUT_posts_id req env ps us in
  res w = Some {| status := 201; payload := BPost (BlogPost.apiRepr p) |} ∧
  posts w = ps ∧ users w = us.
Proof.
  intros Hauth Hne Hid Hoid Hp Ht Hc. cbv zeta.
  assert (setPath (collect_updated (body req)) "title" (BlogPost.title p) =
          inr (BlogPost.title p)) as Ht'.
  { by rewrite setPath_title, Ht. }
  assert (setPath (collect_updated (body req)) "content"
            (BlogPost.content p) = inr (BlogPost.content p)) as Hc'.
  { by rewrite setPath_content, Hc. }
  destruct (put_world req env ps us usr p _ _ Hauth Hoid Hp Ht' Hc')
    as [tr ->].
  pose proof (ids_match req Hne Hid) as Hok.
  apply negb_false_iff in Hok. rewrite Hok. cbn [res posts users].
  destruct p as [i a ti co cr]. cbn. split_and!; try done.
  by apply insert_id.
Qed.

(** ** Registration *)

Lemma or_empty_id s : User.or_empty s = s.
Proof.
  unfold User.or_empty. destruct (String.eqb s EmptyString) eqn:Hs; [|done].
  by apply String.eqb_eq in Hs.
Qed.

Lemma count_zero_no_match us name id :
  countByUsername us name = 0%nat →
  Forall (λ x, User._id x ≠ id) us →
  existsb (λ x, String.eqb (User.username x) name
                || String.eqb (User._id x) id) us = false.
Proof.
  unfold countByUsername. induction us as [|x us IH]; [done|].
  cbn. intros Hcount Hfresh. apply Forall_cons in Hfresh as [Hx Hfresh].
  destruct (String.eqb (User.username x) name); [done|]. cbn.
  apply String.eqb_neq in Hx. rewrite Hx. cbn. by apply IH.
Qed.

Lemma count_zero_not_found us name :
  countByUsername us name = 0%nat → findByUsername us name = None.
Proof.
  unfold countByUsername, findByUsername.
  induction us as [|x us IH]; [done|]. cbn.
  destruct (String.eqb (User.username x) name); [done|]. apply IH.
Qed.

Lemma count_zero_not_elem us name :
  countByUsername us name = 0%nat → name ∉ User.username <$> us.
Proof.
  unfold countByUsername. induction us as [|x us IH]; cbn.
  - intros _. apply not_elem_of_nil.
  - destruct (String.eqb (User.username x) name) eqn:Hx; [done|].
    intros Hcount. apply not_elem_of_cons. split; [|by apply IH].
    apply String.eqb_neq in Hx. congruence.
Qed.


Lemma count_snoc us u :
  countByUsername (us ++ [u]) (User.username u) =
  S (countByUsername us (User.username u)).
Proof.
  unfold countByUsername. rewrite List.filter_app, List.length_app. cbn.
  rewrite String.eqb_refl. cbn. lia.
Qed.

Lemma truthy_string s : s ≠ EmptyString → truthy (Some (JStr s)) = true.
Proof. intros Hs. cbn. apply String.eqb_neq in Hs. by rewrite Hs. Qed.

(** The body of a registration: four non-empty strings. *)
Lemma registration_passes_check req u pw f l :
  body req !! "username" = Some (JStr u) →
  body req !! "password" = Some (JStr pw) →
  body req !! "firstName" = Some (JStr f) →
  body req !! "lastName" = Some (JStr l) →
  u ≠ EmptyString → pw ≠ EmptyString → f ≠ EmptyString → l ≠ EmptyString →
  findIndex (λ field, negb (truthy (body req !! field)))
            requiredUserFields = None.
Proof.
  intros Hu Hp Hf Hl Hun Hpn Hfn Hln.
  unfold requiredUserFields. cbn [findIndex].
  rewrite Hu, Hp, Hf, Hl, !truthy_string by done. done.
Qed.

(** The world a registration under a free name leaves behind. *)
Lemma post_users_world req env ps us u pw f l :
  body req !! "username" = Some (JStr u) →
  body req !! "password" = Some (JStr pw) →
  body req !! "firstName" = Some (JStr f) →
  body req !! "lastName" = Some (JStr l) →
  u ≠ EmptyString → pw ≠ EmptyString → f ≠ EmptyString → l ≠ EmptyString →
  trim u ≠ EmptyString →
  bcrypt_hash (trim pw) ≠ EmptyString →
  countByUsername us (trim u) = 0%nat →
  Forall (λ x, User._id x ≠ newId env) us →
  let user := {| User._id := newId env;
                 User.username := trim u;
                 User.password := bcrypt_hash (trim pw);
                 User.firstName := f;
                 User.lastName := l |} in
  ∃ tr, serve POST_users req env ps us =
        {| res := Some {| status := 201;
                          payload := BUser {| User.r_username := trim u;
                                              User.r_firstName := f;
                                              User.r_lastName := l |} |};
           posts := ps;
           users := us ++ [user];
           trace := tr |}.
Proof.
  intros Hu Hp Hf Hl Hun Hpn Hfn Hln Htu Hh Hcount Hfresh. cbv zeta.
  unfold_route; unfold post_users.
  rewrite (registration_passes_check req u pw f l) by done.
  rewrite Hu, Hp, Hf, Hl. unfold User_count, User_create. run.
  rewrite Hcount. run. unfold User.hashPassword.
  apply String.eqb_neq in Htu, Hh. rewrite Htu, Hh. run.
  rewrite (count_zero_no_match us (trim u) (newId env) Hcount Hfresh). run.
  unfold User.apiRepr. cbn. rewrite !or_empty_id. eauto.
Qed.

(** X11. A registration with four non-empty strings, under a name that is
    free after trimming, is answered 201 with the trimmed username and
    the names as sent; exactly one user is added, whose digest is the
    hash of the trimmed password; the posts are as before. *)
Theorem post_users_registers req env ps us u pw f l :
  body req !! "username" = Some (JStr u) →
  body req !! "password" = Some (JStr pw) →
  body req !! "firstName" = Some (JStr f) →
  body req !! "lastName" = Some (JStr l) →
  u ≠ EmptyString → pw ≠ EmptyString → f ≠ EmptyString → l ≠ EmptyString →
  trim u ≠ EmptyString →
  bcrypt_hash (trim pw) ≠ EmptyString →
  countByUsername us (trim u) = 0%nat →
  Forall (λ x, User._id x ≠ newId env) us →
  let w := serve POST_users req env ps us in
  res w = Some {| status := 201;
                  payload := BUser {| User.r_username := trim u;
                                      User.r_firstName := f;
                                      User.r_lastName := l |} |} ∧
  users w = (us ++ [{| User._id := newId env;
                       User.username := trim u;
                       User.password :=
                         User.hashPassword bcrypt_hash (trim pw);
                       User.firstName := f;
                       User.lastName := l |}])%list ∧
  posts w = ps.
Proof.
  intros Hu Hp Hf Hl Hun Hpn Hfn Hln Htu Hh Hcount Hfresh. cbv zeta.
  destruct (post_users_world req env ps us u pw f l) as [tr ->]; done.
Qed.


(** The world a registration under a taken name leaves behind. *)
Lemma post_users_taken_world req env ps us u pw f l :
  body req !! "username" = Some (JStr u) →
  body req !! "password" = Some (JStr pw) →
  body req !! "firstName" = Some (JStr f) →
  body req !! "lastName" = Some (JStr l) →
  u ≠ EmptyString → pw ≠ EmptyString → f ≠ EmptyString → l ≠ EmptyString →
  (0 < countByUsername us (trim u))%nat →
  ∃ tr, serve POST_users req env ps us =
        {| res := Some {| status := 422;
                          payload := BMessage "username already taken" |};
           posts := ps; users := us; trace := tr |}.
Proof.
  intros Hu Hp Hf Hl Hun Hpn Hfn Hln Hcount.
  unfold_route; unfold post_users.
  rewrite (registration_passes_check req u pw f l) by done.
  rewrite Hu, Hp, Hf, Hl. unfold User_count, User_create. run.
  destruct (countByUsername us (trim u)) as [|n]; [lia|]. run.
  destruct (String.eqb (trim u) EmptyString); run; eauto.
Qed.

(** X13. The same registration sent twice: the first is answered 201, the
    second 422, and the second adds nothing. *)
Theorem register_twice req env env' ps us u pw f l :
  body req !! "username" = Some (JStr u) →
  body req !! "password" = Some (JStr pw) →
  body req !! "firstName" = Some (JStr f) →
  body req !! "lastName" = Some (JStr l) →
  u ≠ EmptyString → pw ≠ EmptyString → f ≠ EmptyString → l ≠ EmptyString →
  trim u ≠ EmptyString →
  bcrypt_hash (trim pw) ≠ EmptyString →
  countByUsername us (trim u) = 0%nat →
  Forall (λ x, User._id x ≠ newId env) us →
  let w1 := serve POST_users req env ps us in
  let w2 := serve POST_users req env' (posts w1) (users w1) in
  (∃ r, res w1 = Some r ∧ status r = 201%nat) ∧
  res w2 = Some {| status := 422;
                   payload := BMessage "username already taken" |} ∧
  users w2 = users w1 ∧ posts w2 = posts w1.
Proof.
  intros Hu Hp Hf Hl Hun Hpn Hfn Hln Htu Hh Hcount Hfresh. cbv zeta.
  destruct (post_users_world req env ps us u pw f l) as [tr ->]; try done.
  cbn [res posts users].
  match goal with
  | |- context [serve POST_users req env' ps (us ++ [?x])] =>
      destruct (post_users_taken_world req env' ps (us ++ [x]) u pw f l)
        as [tr' ->]; try done;
      [pose proof (count_snoc us x) as Hs; cbn in Hs; lia|]
  end.
  cbn. split_and!; try done. eauto.
Qed.

(** X14. A registration that passes the required-field test but whose username
    or password is not a string is answered by the default error page,
    500, and nothing is stored: [trim] is called on a value that has no
    such method. *)
Theorem post_users_non_string req env ps us :
  (∀ f, f ∈ requiredUserFields → truthy (body req !! f) = true) →
  (∀ s, body req !! "username" ≠ Some (JStr s)) ∨
  (∀ s, body req !! "password" ≠ Some (JStr s)) →
  let w := serve POST_users req env ps us in
  res w = Some {| status := 500; payload := BText "Internal Server Error" |} ∧
  users w = us ∧ posts w = ps.
Proof.
  intros Hall Hns. cbv zeta. unfold_route; unfold post_users.
  rewrite findIndex_None.
  2: { intros x Hx. by rewrite (Hall x Hx). }
  unfold trim_of.
  destruct (body req !! "username") as [[| | |u| |]|] eqn:Hu; run; try done.
  destruct Hns as [Hns|Hns]; [by destruct (Hns u)|].
  destruct (body req !! "password") as [[| | |pw| |]|] eqn:Hp; run; try done.
  by destruct (Hns pw).
Qed.

(** ** What each route leaves alone *)

Lemma keeps_users_ret {A} (a : A) : keeps_users (mret a).
Proof. by intros w o w' [= <- <-]. Qed.

Lemma keeps_users_throw {A} e : keeps_users (throw (A:=A) e).
Proof. by intros w o w' [= <- <-]. Qed.

Lemma keeps_users_bind {A B} (m : M A) (f : A → M B) :
  keeps_users m → (∀ a, keeps_users (f a)) → keeps_users (m ≫= f).
Proof.
  intros Hm Hf w o w'. unfold mbind, M_bind.
  destruct (m w) as [[a|e] w1] eqn:Hrun.
  - intros Hrun'. rewrite (Hf a _ _ _ Hrun'). by eapply Hm.
  - intros [= <- <-]. by eapply Hm.
Qed.

Lemma keeps_users_catch {A} (m : M A) (h : Error → M A) :
  keeps_users m → (∀ e, keeps_users (h e)) → keeps_users (catch m h).
Proof.
  intros Hm Hh w o w'. unfold catch.
  destruct (m w) as [[a|e] w1] eqn:Hrun.
  - intros [= <- <-]. by eapply Hm.
  - intros Hrun'. rewrite (Hh e _ _ _ Hrun'). by eapply Hm.
Qed.

Lemma keeps_users_log e : keeps_users (log e).
Proof. by intros w o w' [= <- <-]. Qed.

Lemma keeps_users_get : keeps_users get_world.
Proof. by intros w o w' [= <- <-]. Qed.

Lemma keeps_users_set_posts ps : keeps_users (modify (set_posts ps)).
Proof. by intros w o w' [= <- <-]. Qed.

Lemma keeps_users_lift {A} (r : Error + A) : keeps_users (lift r).
Proof. destruct r; [apply keeps_users_throw|apply keeps_users_ret]. Qed.

Lemma keeps_users_send r : keeps_users (send r).
Proof.
  intros w o w'. unfold send. destruct (res w); by intros [= <- <-].
Qed.

Lemma keeps_users_json code obj : keeps_users (json code obj).
Proof. apply keeps_users_send. Qed.

Lemma keeps_users_forEach {A} (xs : list A) (f : A → M unit) :
  (∀ x, keeps_users (f x)) → keeps_users (forEach xs f).
Proof.
  intros Hf. induction xs as [|x xs IH]; [apply keeps_users_ret|].
  cbn. apply keeps_users_bind; [apply Hf|done].
Qed.

Create HintDb keeps discriminated.
#[local] Hint Resolve keeps_users_ret keeps_users_throw keeps_users_log
  keeps_users_get keeps_users_set_posts keeps_users_lift keeps_users_send
  keeps_users_json : keeps.

(** Breaking a computation down to its primitive steps. *)
Ltac keeps_step :=
  first
    [ apply keeps_users_bind; [|intros ?]
    | apply keeps_users_catch; [|intros ?]
    | apply keeps_users_forEach; intros ?
    | solve [auto with keeps]
    | match goal with
      | |- keeps_users (match ?x with _ => _ end) => destruct x
      | |- keeps_users (if ?b then _ else _) => destruct b
      end ].

Lemma keeps_users_passport req next :
  (∀ u, keeps_users (next u)) → keeps_users (passport_authenticate req next).
Proof.
  intros Hnext. unfold_passport.
  unfold strategy, User_findOne. repeat keeps_step; apply Hnext.
Qed.

Lemma keeps_users_gated route req env :
  route ≠ POST_users → keeps_users (app route req env).
Proof.
  intros Hroute. destruct route; try done; unfold_app.
  - unfold get_posts, BlogPost_find. repeat keeps_step.
  - unfold get_posts_id, BlogPost_findById, castObjectId, apiRepr_of.
    repeat keeps_step.
  - apply keeps_users_passport. intros u.
    unfold post_posts, BlogPost_create, requiredString, optionalString.
    repeat keeps_step.
  - apply keeps_users_passport. intros u.
    unfold delete_posts_id, BlogPost_findByIdAndRemove, castObjectId.
    repeat keeps_step.
  - apply keeps_users_passport. intros u.
    unfold put_posts_id, BlogPost_findByIdAndUpdate, castObjectId, apiRepr_of.
    repeat keeps_step.
  - unfold not_found. repeat keeps_step.
Qed.

Lemma express_keeps_users (m : M unit) w :
  keeps_users m → users (express m w) = users w.
Proof.
  intros Hm. unfold express. destruct (m w) as [[[]|e] w1] eqn:Hrun.
  - by eapply Hm.
  - destruct (res w1) eqn:Hres; [by eapply Hm|].
    unfold send. rewrite Hres. cbn. by eapply Hm.
Qed.

(** What a registration does to the users: nothing, or one user more,
    under a name nobody had and with the id drawn for it. *)
Lemma post_users_step req env ps us :
  let w := serve POST_users req env ps us in
  posts w = ps ∧
  (users w = us ∨
   ∃ u, users w = (us ++ [u])%list ∧
        countByUsername us (User.username u) = 0%nat).
Proof.
  cbv zeta. unfold_route; unfold post_users.
  destruct (findIndex _ requiredUserFields); [run; by split; [|left]|].
  unfold trim_of.
  destruct (body req !! "username") as [[| | |u| |]|]; run;
    try (by split; [|left]).
  destruct (body req !! "password") as [[| | |pw| |]|]; run;
    try (by split; [|left]).
  unfold User_count, User_create, requiredString, optionalString. run.
  destruct (countByUsername us (trim u)) as [|n] eqn:Hcount; run.
  2: { destruct (String.eqb (trim u) EmptyString); run; by split; [|left]. }
  destruct (String.eqb (trim u) EmptyString); run; [by split; [|left]|].
  destruct (String.eqb (User.hashPassword bcrypt_hash (trim pw)) EmptyString);
    run; [by split; [|left]|].
  destruct (castField (body req !! "firstName")); run; [by split; [|left]|].
  destruct (castField (body req !! "lastName")); run; [by split; [|left]|].
  destruct (existsb _ us); run; [by split; [|left]|].
  split; [done|]. right. eexists. split; [done|]. done.
Qed.

(** X16. Only POST /users can change the users, and it never changes the
    posts; the two GET routes and an unmatched route change nothing at
    all, and an unmatched route is answered 404. *)
Theorem routes_leave_alone route req env ps us :
  let w := serve route req env ps us in
  (route ≠ POST_users → users w = us) ∧
  (route = POST_users ∨ route = GET_posts ∨ route = GET_posts_id ∨
   route = Unmatched → posts w = ps) ∧
  (route = Unmatched →
   res w = Some {| status := 404; payload := BMessage "Not Found" |}).
Proof.
  cbv zeta. split_and!.
  - intros Hroute.
    change (users (express (app route req env) (arrive ps us)) = us).
    by rewrite (express_keeps_users _ _ (keeps_users_gated _ req env Hroute)).
  - intros [-> | [-> | [-> | ->]]].
    + apply post_users_step.
    + unfold_route; unfold get_posts, BlogPost_find. by run.
    + unfold_route; unfold get_posts_id, BlogPost_findById. run.
      destruct (isObjectId (params_id req)); run; [|done].
      destruct (ps !! params_id req); by run.
    + unfold_route. by run.
  - intros ->. unfold_route. by run.
Qed.

(** X15. No request makes two users share a name: when the stored usernames
    are pairwise different before a request, they are so after it. *)
Theorem usernames_stay_unique route req env ps us :
  NoDup (User.username <$> us) →
  NoDup (User.username <$> users (serve route req env ps us)).
Proof.
  intros Hnodup. destruct (decide (route = POST_users)) as [->|Hroute].
  - destruct (post_users_step req env ps us) as [_ [-> | (u & -> & Hcount)]];
      [done|].
    rewrite fmap_app. apply NoDup_app. split_and!; [done| |apply NoDup_singleton].
    intros name Hin Hin'. apply list_elem_of_singleton in Hin' as ->.
    by apply (count_zero_not_elem us (User.username u)).
  - change (NoDup (User.username <$>
                     users (express (app route req env) (arrive ps us)))).
    by rewrite (express_keeps_users _ _ (keeps_users_gated _ req env Hroute)).
Qed.

(** ** Creating posts, whatever the body *)

(** X18. Whatever an authenticated POST /posts carries, it stores at most one
    post, under the id drawn for it, and the author of that post is the
    authenticated user, its creation time the time of the request and its
    title a non-empty string. *)
Theorem post_posts_author_is_user req env ps us usr :
  authenticated_as us req = Some usr →
  let w := serve POST_posts req env ps us in
  users w = us ∧
  (posts w = ps ∨
   ∃ p, ps !! newId env = None ∧
        posts w = <[newId env := p]> ps ∧
        BlogPost._id p = newId env ∧
        BlogPost.author p =
          {| BlogPost.firstName := User.firstName usr;
             BlogPost.lastName := User.lastName usr |} ∧
        BlogPost.created p = now env ∧
        ∃ t, BlogPost.title p = Some t ∧ t ≠ EmptyString).
Proof.
  intros Hauth. cbv zeta. unfold_route.
  rewrite (auth_gate_pass bcrypt_compare us ps req
             (λ user, post_posts user req env) usr Hauth).
  unfold post_posts, BlogPost_create, requiredPostFields,
    requiredString, optionalString. cbn [forEach].
  destruct (body req !! "title") as [vt|]; run.
  2: { destruct (body req !! "content"); run; by split; [|left]. }
  destruct (body req !! "content") as [vc|]; run.
  all: destruct (castString vt) as [e|[t|]]; run; try (by split; [|left]).
  all: destruct (String.eqb t EmptyString) eqn:Ht; run;
    try (by split; [|left]).
  1: destruct (castString vc) as [e|c]; run; try (by split; [|left]).
  all: destruct (ps !! newId env) eqn:Hfresh; run; try (by split; [|left]).
  all: split; [done|]; right; eexists; split_and!; try done.
  all: exists t; split; [done|]; by apply String.eqb_neq.
Qed.

(** X19. An authenticated POST /posts whose body has a content and a
    title that is null or the empty string is answered 500 and stores
    nothing: the field is there, so no 400 goes out, and the schema
    refuses the document. *)
Theorem post_posts_bad_title_is_500 req env ps us usr v :
  authenticated_as us req = Some usr →
  body req !! "title" = Some v →
  v = JNull ∨ v = JStr EmptyString →
  is_Some (body req !! "content") →
  let w := serve POST_posts req env ps us in
  res w = Some {| status := 500; payload := BError "Something went wrong" |} ∧
  posts w = ps ∧ users w = us.
Proof.
  intros Hauth Ht Hbad [vc Hc]. cbv zeta. unfold_route.
  rewrite (auth_gate_pass bcrypt_compare us ps req
             (λ user, post_posts user req env) usr Hauth).
  unfold post_posts, BlogPost_create, requiredPostFields,
    requiredString, optionalString. cbn [forEach].
  rewrite Ht, Hc. by destruct Hbad as [-> | ->]; run.
Qed.

End Further.

(** ** The life cycle of the server *)

(** X24. When the server fails to listen, [runServer] is rejected with the
    connection closed again, and a [closeServer] after it is rejected as
    well, the server not running. *)
Theorem runServer_listen_failure o p p1 :
  Lifecycle.runServer o p = (Lifecycle.Rejected Lifecycle.ListenFailed, p1) →
  Lifecycle.connected p1 = false ∧
  Lifecycle.closeServer p1 = (Lifecycle.Rejected Lifecycle.NotRunning, p1).
Proof.
  unfold Lifecycle.runServer.
  destruct (Lifecycle.connect_fails o); [done|].
  destruct (Lifecycle.listen_fails o); [|done].
  by intros [= <-].
Qed.

(** X23. [closeServer] after a [runServer] that resolved resolves too and
    leaves the process disconnected with a server that does not listen;
    a second [closeServer] is then rejected, the server not running. *)
Theorem runServer_then_closeServer o p p1 :
  Lifecycle.runServer o p = (Lifecycle.Resolved, p1) →
  ∃ p2,
    Lifecycle.closeServer p1 = (Lifecycle.Resolved, p2) ∧
    Lifecycle.connected p2 = false ∧ Lifecycle.server p2 = Some false ∧
    Lifecycle.closeServer p2 =
      (Lifecycle.Rejected Lifecycle.NotRunning, p2).
Proof.
  unfold Lifecycle.runServer.
  destruct (Lifecycle.connect_fails o); [done|].
  destruct (Lifecycle.listen_fails o); [done|].
  intros [= <-]. eexists. by split_and!.
Qed.

(** X25. When the connection fails in a process that has not run a server
    yet, [runServer] is rejected without assigning [server], and a
    [closeServer] after it is rejected as well: [close] is called on
    [undefined]. *)
Theorem runServer_connect_failure o p p1 :
  Lifecycle.server p = None →
  Lifecycle.runServer o p = (Lifecycle.Rejected Lifecycle.ConnectFailed, p1) →
  Lifecycle.server p1 = None ∧
  ∃ p2, Lifecycle.closeServer p1 =
          (Lifecycle.Rejected Lifecycle.ServerUndefined, p2) ∧
        Lifecycle.connected p2 = false ∧ Lifecycle.server p2 = None.
Proof.
  intros Hs. unfold Lifecycle.runServer.
  destruct (Lifecycle.connect_fails o).
  - intros [= <-]. split; [done|]. unfold Lifecycle.closeServer. cbn.
    rewrite Hs. eauto.
  - by destruct (Lifecycle.listen_fails o).
Qed.

(** * The further properties at work on the concrete deployment *)

Section FurtherInstances.

Import Scenario.

Lemma get_post_present_witness :
  let req := request post1_id ∅ None in
  let w := run_request GET_posts_id req env2 store1 [testboy] in
  res w = Some {| status := 200; payload := BPost (BlogPost.apiRepr post1) |} ∧
  posts w = store1 ∧ users w = [testboy].
Proof.
  cbv zeta.
  apply (get_post_present toy_compare toy_hash hex24 drop_paths).
  all: vm_compute; reflexivity.
Defined.

Lemma delete_post_removes_witness :
  let req := request post1_id ∅ good_auth in
  let w := run_request DELETE_posts_id req env2 store1 [testboy] in
  users w = [testboy] ∧
  (hex24 (params_id req) = true →
   res w = Some {| status := 204; payload := BEmpty |} ∧
   posts w !! params_id req = None ∧
   ∀ id, id ≠ params_id req → posts w !! id = store1 !! id) ∧
  (hex24 (params_id req) = false →
   res w = Some {| status := 500;
                   payload := BError "something went terribly wrong" |} ∧
   posts w = store1).
Proof.
  cbv zeta.
  apply (delete_post_removes toy_compare toy_hash hex24 drop_paths _ env2 store1
           [testboy] testboy).
  vm_compute; reflexivity.
Defined.

Lemma delete_then_get_fails_witness :
  let req := request post1_id ∅ good_auth in
  let req' := request post1_id ∅ None in
  let w := run_request DELETE_posts_id req env2 store1 [testboy] in
  res (run_request GET_posts_id req' env2 (posts w) (users w)) =
    Some {| status := 500;
            payload := BError "something went horribly awry" |}.
Proof.
  cbv zeta.
  apply (delete_then_get_fails toy_compare toy_hash hex24 drop_paths _ env2 store1
           [testboy] testboy).
  all: vm_compute; reflexivity.
Defined.

Lemma delete_twice_witness :
  let req := request post1_id ∅ good_auth in
  let w1 := run_request DELETE_posts_id req env2 store1 [testboy] in
  let w2 := run_request DELETE_posts_id req env2 (posts w1) (users w1) in
  res w2 = Some {| status := 204; payload := BEmpty |} ∧
  posts w2 = posts w1 ∧ users w2 = users w1.
Proof.
  cbv zeta.
  apply (delete_twice toy_compare toy_hash hex24 drop_paths _ env2 store1
           [testboy] testboy).
  all: vm_compute; reflexivity.
Defined.

(** A PUT whose body names another post. *)
Lemma put_mismatch_still_updates_witness :
  let req := request post1_id
               {[ "id" := JStr post2_id; "title" := JStr "Changed" ]}
               good_auth in
  let w := run_request PUT_posts_id req env2 store1 [testboy] in
  res w = Some {| status := 400;
                  payload := BError
                    "Request path id and request body id values must match" |} ∧
  ∃ p', posts w !! params_id req = Some p' ∧
        BlogPost.title p' = Some "Changed" ∧
        BlogPost.content p' = Some "Old content" ∧
        BlogPost.author p' = BlogPost.author post1 ∧
        BlogPost.created p' = BlogPost.created post1.
Proof.
  cbv zeta.
  apply (put_mismatch_still_updates toy_compare toy_hash hex24 drop_paths _ env2
           store1 [testboy] testboy post1).
  - vm_compute; reflexivity.
  - vm_compute. discriminate.
  - vm_compute; reflexivity.
  - vm_compute; reflexivity.
  - vm_compute; reflexivity.
  - vm_compute; reflexivity.
Defined.

Lemma put_then_get_witness :
  let req := request post1_id
               {[ "id" := JStr post1_id; "content" := JStr "Changed" ]}
               good_auth in
  let req' := request post1_id ∅ None in
  let w := run_request PUT_posts_id req env2 store1 [testboy] in
  ∃ r, res w = Some {| status := 201; payload := BPost r |} ∧
       BlogPost.r_title r = Some "Old title" ∧
       BlogPost.r_content r = Some "Changed" ∧
       res (run_request GET_posts_id req' env2 (posts w) (users w)) =
         Some {| status := 200; payload := BPost r |}.
Proof.
  cbv zeta.
  apply (put_then_get toy_compare toy_hash hex24 drop_paths _ env2 store1 [testboy]
           testboy post1).
  all: try (vm_compute; reflexivity). discriminate.
Defined.

Lemma put_without_fields_changes_nothing_witness :
  let req := request post1_id {[ "id" := JStr post1_id ]} good_auth in
  let w := run_request PUT_posts_id req env2 store1 [testboy] in
  res w = Some {| status := 201; payload := BPost (BlogPost.apiRepr post1) |} ∧
  posts w = store1 ∧ users w = [testboy].
Proof.
  cbv zeta.
  apply (put_without_fields_changes_nothing toy_compare toy_hash hex24 drop_paths _ env2
           store1 [testboy] testboy post1).
  all: try (vm_compute; reflexivity). discriminate.
Defined.

(** A registration the store has room for: the username and the password
    come with spaces around them. *)
Lemma post_users_registers_witness :
  let b : gmap string JsVal :=
    {[ "username" := JStr " testboy2 "; "password" := JStr " hi ";
       "firstName" := JStr "William"; "lastName" := JStr "twobit" ]} in
  let req := request EmptyString b None in
  let w := run_request POST_users req env2 store1 [testboy] in
  res w = Some {| status := 201;
                  payload := BUser {| User.r_username := "testboy2";
                                      User.r_firstName := "William";
                                      User.r_lastName := "twobit" |} |} ∧
  users w = [testboy;
             {| User._id := post2_id;
                User.username := "testboy2";
                User.password := toy_hash "hi";
                User.firstName := "William";
                User.lastName := "twobit" |}] ∧
  posts w = store1.
Proof.
  cbv zeta.
  apply (post_users_registers toy_compare toy_hash hex24 drop_paths _ env2 store1
           [testboy] " testboy2 " " hi " "William" "twobit").
  all: try (vm_compute; reflexivity); try discriminate.
  constructor; [vm_compute; discriminate|constructor].
Defined.


Lemma register_twice_witness :
  let b : gmap string JsVal :=
    {[ "username" := JStr " testboy2 "; "password" := JStr " hi ";
       "firstName" := JStr "William"; "lastName" := JStr "twobit" ]} in
  let req := request EmptyString b None in
  let w1 := run_request POST_users req env2 store1 [testboy] in
  let w2 := run_request POST_users req env2 (posts w1) (users w1) in
  (∃ r, res w1 = Some r ∧ status r = 201%nat) ∧
  res w2 = Some {| status := 422;
                   payload := BMessage "username already taken" |} ∧
  users w2 = users w1 ∧ posts w2 = posts w1.
Proof.
  cbv zeta.
  apply (register_twice toy_compare toy_hash hex24 drop_paths _ env2 env2 store1
           [testboy] " testboy2 " " hi " "William" "twobit").
  all: try (vm_compute; reflexivity); try discriminate.
  constructor; [vm_compute; discriminate|constructor].
Defined.

(** A registration whose password is a number. *)
Lemma post_users_non_string_witness :
  let req := request EmptyString
               (<["password" := JNum 5]> new_user_body) None in
  let w := run_request POST_users req env2 store1 [testboy] in
  res w = Some {| status := 500; payload := BText "Internal Server Error" |} ∧
  users w = [testboy] ∧ posts w = store1.
Proof.
  cbv zeta.
  apply (post_users_non_string toy_compare toy_hash hex24 drop_paths).
  - intros f Hf.
    repeat (apply elem_of_cons in Hf as [->|Hf]; [vm_compute; reflexivity|]).
    by apply elem_of_nil in Hf.
  - right. intros s. vm_compute. discriminate.
Defined.

Lemma usernames_stay_unique_witness :
  let req := request EmptyString new_user_body None in
  NoDup (User.username <$>
         users (run_request POST_users req env2 store1 [testboy; spaced])).
Proof.
  cbv zeta.
  apply (usernames_stay_unique toy_compare toy_hash hex24 drop_paths).
  apply NoDup_cons. split.
  - intros Hin. apply list_elem_of_singleton in Hin. discriminate Hin.
  - apply NoDup_singleton.
Defined.

(** A POST /posts that names another author in its body. *)
Lemma post_posts_author_is_user_witness :
  let req := request EmptyString new_post_body good_auth in
  let w := run_request POST_posts req env2 store1 [testboy] in
  users w = [testboy] ∧
  (posts w = store1 ∨
   ∃ p, store1 !! newId env2 = None ∧
        posts w = <[newId env2 := p]> store1 ∧
        BlogPost._id p = newId env2 ∧
        BlogPost.author p =
          {| BlogPost.firstName := "Kyle"; BlogPost.lastName := "S" |} ∧
        BlogPost.created p = now env2 ∧
        ∃ t, BlogPost.title p = Some t ∧ t ≠ EmptyString).
Proof.
  cbv zeta.
  apply (post_posts_author_is_user toy_compare toy_hash hex24 drop_paths _ env2 store1
           [testboy] testboy).
  vm_compute; reflexivity.
Defined.

(** A POST /posts with an empty title. *)
Lemma post_posts_bad_title_is_500_witness :
  let req := request EmptyString
               {[ "title" := JStr EmptyString; "content" := JStr "C" ]}
               good_auth in
  let w := run_request POST_posts req env2 store1 [testboy] in
  res w = Some {| status := 500; payload := BError "Something went wrong" |} ∧
  posts w = store1 ∧ users w = [testboy].
Proof.
  cbv zeta.
  apply (post_posts_bad_title_is_500 toy_compare toy_hash hex24 drop_paths _ env2
           store1 [testboy] testboy (JStr EmptyString)).
  - vm_compute; reflexivity.
  - vm_compute; reflexivity.
  - by right.
  - exists (JStr "C"). vm_compute; reflexivity.
Defined.

(** A POST /posts with an empty body. *)
Lemma post_posts_both_missing_witness :
  let req := request EmptyString ∅ good_auth in
  let w := run_request POST_posts req env2 store1 [testboy] in
  res w = Some {| status := 400;
                  payload := BError ("Missing " ++ dquote ++ "title" ++
                                     dquote ++ " in request body") |} ∧
  posts w = store1 ∧
  existsb is_post_create (trace w) = false.
Proof.
  cbv zeta.
  apply (post_posts_both_missing toy_compare toy_hash hex24 drop_paths _ env2 store1
           [testboy] testboy).
  all: vm_compute; reflexivity.
Defined.

(** A POST /posts with a title alone. *)
Lemma post_posts_without_content_stores_witness :
  let req := request EmptyString {[ "title" := JStr "T" ]} good_auth in
  let w := run_request POST_posts req env2 store1 [testboy] in
  (∃ r, res w = Some r ∧ status r = 400%nat) ∧
  ∃ p, posts w = <[newId env2 := p]> store1 ∧
       BlogPost.title p = Some "T" ∧ BlogPost.content p = None.
Proof.
  cbv zeta.
  apply (post_posts_without_content_stores toy_compare toy_hash hex24 drop_paths _ env2
           store1 [testboy] testboy "T").
  all: try (vm_compute; reflexivity). discriminate.
Defined.

Lemma strategy_unknown_user_calls_twice_witness :
  trace (strategy toy_compare "nobody" "AliensExist"
           (λ user info, log (EvVerified user info))
           (arrive ∅ [testboy])).2 =
  [EvStore (UserFindOne "nobody");
   EvVerified None (Some IncorrectUsername);
   EvVerified None (Some IncorrectPassword)].
Proof.
  apply (strategy_unknown_user_calls_twice toy_compare).
  vm_compute; reflexivity.
Defined.

(** The life cycle: a run that resolves, a run whose port is taken, and a
    close with nothing to close. *)
Lemma runServer_then_closeServer_witness :
  ∃ p2,
    Lifecycle.closeServer
      {| Lifecycle.connected := true; Lifecycle.server := Some true |} =
      (Lifecycle.Resolved, p2) ∧
    Lifecycle.connected p2 = false ∧ Lifecycle.server p2 = Some false ∧
    Lifecycle.closeServer p2 =
      (Lifecycle.Rejected Lifecycle.NotRunning, p2).
Proof.
  apply (runServer_then_closeServer
           {| Lifecycle.connect_fails := false;
              Lifecycle.listen_fails := false |}
           Lifecycle.initial).
  reflexivity.
Defined.

Lemma runServer_listen_failure_witness :
  let p1 := {| Lifecycle.connected := false;
               Lifecycle.server := Some false |} in
  Lifecycle.connected p1 = false ∧
  Lifecycle.closeServer p1 = (Lifecycle.Rejected Lifecycle.NotRunning, p1).
Proof.
  cbv zeta.
  apply (runServer_listen_failure
           {| Lifecycle.connect_fails := false;
              Lifecycle.listen_fails := true |}
           Lifecycle.initial).
  reflexivity.
Defined.

Lemma runServer_connect_failure_witness :
  Lifecycle.server Lifecycle.initial = None ∧
  ∃ p2, Lifecycle.closeServer Lifecycle.initial =
          (Lifecycle.Rejected Lifecycle.ServerUndefined, p2) ∧
        Lifecycle.connected p2 = false ∧ Lifecycle.server p2 = None.
Proof.
  apply (runServer_connect_failure
           {| Lifecycle.connect_fails := true;
              Lifecycle.listen_fails := false |}
           Lifecycle.initial Lifecycle.initial).
  - reflexivity.
  - reflexivity.
Defined.

End FurtherInstances.
